(** * Skincare e-commerce backend: cart, checkout, catalog, login and chat

    A shallow embedding of [src/main.py] and [src/schemas.py].  Every request
    handler of [main.py] becomes a function from the store handle [db] and the
    request payload to the new store handle and a [result]; the documents of
    the four collections are records with the fields of [schemas.py].

    Python values are modelled as follows: [str] as [string] (ASCII), [int] as
    [Z], [float] as the binary64 numbers of [PrimFloat], [bytes] as
    [list Byte.byte], a list as [list], [None] as [option].

    The store is a record of four collections, each a list of documents in
    insertion order; [find_one] answers the first match and [update_one]
    updates the first document with the identifier.  The global [db] is an
    [option]: [None] is the store that is not configured.  Requests are
    served one after the other; an exception that no handler catches is a
    [Raise] outcome (HTTP 500 to the caller). *)

From Stdlib Require Import ZArith NArith List Bool Lia Floats.
From Stdlib.Strings Require Import String Ascii Byte.
Import ListNotations.

Local Open Scope string_scope.
Local Open Scope list_scope.

(** ** Python numbers *)

Module Py.

(** A Python number as it appears in a JSON response: [get_cart] answers
    the integer [0] for a missing cart and a float otherwise. *)
Inductive number : Type :=
| Int (z : Z)
| Float (f : float).

(** [float(z)] for a Python integer, rounded to nearest even by
    [binary_normalize].  CPython raises OverflowError where this function
    answers an infinity (|z| of about 2^1024 and more). *)
Definition float_of_int (z : Z) : float :=
  SF2Prim (binary_normalize prec emax z 0 false).

(** [x * n] for a float [x] and an integer [n]: the integer is converted
    first. *)
Definition mul_int (x : float) (n : Z) : float :=
  PrimFloat.mul x (float_of_int n).

(** [max(1, n)] on integers. *)
Definition max1 (n : Z) : Z := Z.max 1 n.

(** ASCII part of [str.lower]. *)
Definition lower_ascii (c : ascii) : ascii :=
  let n := N_of_ascii c in
  if (65 <=? n)%N && (n <=? 90)%N then ascii_of_N (n + 32) else c.

Fixpoint lower (s : string) : string :=
  match s with
  | EmptyString => EmptyString
  | String c s' => String (lower_ascii c) (lower s')
  end.

(** [k in q] on strings: [k] occurs in [q] at some position. *)
Fixpoint contains (k q : string) : bool :=
  String.prefix k q ||
  match q with
  | EmptyString => false
  | String _ q' => contains k q'
  end.

(** [any(k in q for k in ks)]. *)
Definition any_in (ks : list string) (q : string) : bool :=
  existsb (fun k => contains k q) ks.

End Py.

(** ** bson.ObjectId *)

Module Bson.

(** The 12 bytes of an identifier (fewer when [fromhex] skipped
    whitespace). *)
Definition ObjectId : Type := list byte.

Fixpoint eqb (a b : ObjectId) : bool :=
  match a, b with
  | [], [] => true
  | x :: a', y :: b' => Byte.eqb x y && eqb a' b'
  | _, _ => false
  end.

Definition hex_digit (c : ascii) : option N :=
  let n := N_of_ascii c in
  if (48 <=? n)%N && (n <=? 57)%N then Some (n - 48)%N
  else if (97 <=? n)%N && (n <=? 102)%N then Some (n - 87)%N
  else if (65 <=? n)%N && (n <=? 70)%N then Some (n - 55)%N
  else None.

(** ASCII whitespace, which [bytes.fromhex] skips between two bytes. *)
Definition is_space (c : ascii) : bool :=
  let n := N_of_ascii c in
  (n =? 32)%N || ((9 <=? n)%N && (n <=? 13)%N).

Definition byte_of_nibbles (hi lo : N) : byte :=
  byte_of_ascii (ascii_of_N (16 * hi + lo)).

(** [bytes.fromhex(s)]; [None] stands for its ValueError. *)
Fixpoint fromhex (s : string) : option (list byte) :=
  match s with
  | EmptyString => Some []
  | String c rest =>
      if is_space c then fromhex rest
      else
        match hex_digit c, rest with
        | Some hi, String d rest' =>
            match hex_digit d with
            | Some lo => option_map (cons (byte_of_nibbles hi lo)) (fromhex rest')
            | None => None
            end
        | _, _ => None
        end
  end.

(** [ObjectId(s)] for a string [s]: a string of 24 characters that
    [fromhex] accepts; [None] stands for bson.errors.InvalidId. *)
Definition parse (s : string) : option ObjectId :=
  if (String.length s =? 24)%nat then fromhex s else None.

Definition hex_char (n : N) : ascii :=
  if (n <? 10)%N then ascii_of_N (48 + n) else ascii_of_N (87 + n).

(** [str(oid)]: lower-case hexadecimal, two characters a byte. *)
Fixpoint str (o : ObjectId) : string :=
  match o with
  | [] => EmptyString
  | b :: o' =>
      let n := N_of_ascii (ascii_of_byte b) in
      String (hex_char (n / 16)) (String (hex_char (n mod 16)) (str o'))
  end.

(** The identifier whose 12 bytes are the big-endian digits of [n]. *)
Definition of_N (n : N) : ObjectId :=
  map (fun i => byte_of_ascii (ascii_of_N ((n / 256 ^ N.of_nat (11 - i)) mod 256)))
      (seq 0 12).

End Bson.

(** ** schemas.py: the documents of the four collections *)

Module User.
Record t : Type := {
  name : string;
  email : string;
  password_hash : string;
  address : option string;
  phone : option string;
  is_active : bool
}.
End User.

Module Product.
Record t : Type := {
  title : string;
  description : option string;
  price : float;
  category : string;
  image_url : option string;
  in_stock : bool
}.
End Product.

Module CartItem.
Record t : Type := {
  product_id : string;
  quantity : Z
}.
End CartItem.

Module Cart.
Record t : Type := {
  user_id : string;
  items : list CartItem.t
}.
End Cart.

Module OrderItem.
Record t : Type := {
  product_id : string;
  quantity : Z;
  price : float
}.
End OrderItem.

Module Order.
Record t : Type := {
  user_id : string;
  items : list OrderItem.t;
  total : float;
  status : string
}.
End Order.

(** ** main.py: request and response bodies *)

Module UserCreate.
Record t : Type := { name : string; email : string; password : string }.
End UserCreate.

Module UserLogin.
Record t : Type := { email : string; password : string }.
End UserLogin.

Module ProductCreate.
Record t : Type := {
  title : string;
  description : option string;
  price : float;
  category : string;
  image_url : option string
}.
End ProductCreate.

Module AddToCart.
Record t : Type := { user_id : string; product_id : string; quantity : Z }.
End AddToCart.

Module CheckoutRequest.
Record t : Type := { user_id : string }.
End CheckoutRequest.

Module ChatRequest.
Record t : Type := { question : string }.
End ChatRequest.

(** The reply of [register] and of [login]. *)
Module Account.
Record t : Type := { user_id : string; name : string; email : string }.
End Account.

(** One line of the reply of [get_cart]. *)
Module CartLine.
Record t : Type := {
  product_id : string;
  title : string;
  image_url : option string;
  price : float;
  quantity : Z;
  subtotal : float
}.
End CartLine.

(** The reply of [get_cart]. *)
Module CartView.
Record t : Type := { items : list CartLine.t; total : Py.number }.
End CartView.

(** The reply of [checkout]. *)
Module Receipt.
Record t : Type := { order_id : string; total : float; status : string }.
End Receipt.

(** One element of the reply of [list_products]: the document with [id] in
  place of [_id]. *)
Module Listed.
Record t : Type := { id : string; fields : Product.t }.
End Listed.

(** ** The document store *)

Module Database.

(** A stored document: the identifier the store assigned and the fields. *)
Record Doc (A : Type) : Type := { _id : Bson.ObjectId; fields : A }.
Arguments _id {A} _.
Arguments fields {A} _.

(** A collection in its natural (insertion) order. *)
Definition Collection (A : Type) : Type := list (Doc A).

Record t : Type := {
  user : Collection User.t;
  product : Collection Product.t;
  cart : Collection Cart.t;
  order : Collection Order.t;
  next_oid : N
}.

Definition empty : t :=
  {| user := []; product := []; cart := []; order := []; next_oid := 0 |}.

(** What [create_document] is given: a document and, by the constructor,
    the name of its collection. *)
Inductive data : Type :=
| in_user (u : User.t)
| in_product (p : Product.t)
| in_cart (c : Cart.t)
| in_order (o : Order.t).

(** The store after [insert_one]: the document is appended under the
    identifier [oid]. *)
Definition insert_one (oid : Bson.ObjectId) (x : data) (d : t) : t :=
  match x with
  | in_user u =>
      {| user := user d ++ [{| _id := oid; fields := u |}]; product := product d;
         cart := cart d; order := order d; next_oid := N.succ (next_oid d) |}
  | in_product p =>
      {| user := user d; product := product d ++ [{| _id := oid; fields := p |}];
         cart := cart d; order := order d; next_oid := N.succ (next_oid d) |}
  | in_cart c =>
      {| user := user d; product := product d;
         cart := cart d ++ [{| _id := oid; fields := c |}]; order := order d;
         next_oid := N.succ (next_oid d) |}
  | in_order o =>
      {| user := user d; product := product d; cart := cart d;
         order := order d ++ [{| _id := oid; fields := o |}];
         next_oid := N.succ (next_oid d) |}
  end.

(** [collection.update_one({"_id": oid}, {"$set": {"items": its}})] on a
    list of carts: the first document with that identifier is updated. *)
Fixpoint set_items (oid : Bson.ObjectId) (its : list CartItem.t)
         (c : Collection Cart.t) : Collection Cart.t :=
  match c with
  | [] => []
  | doc :: c' =>
      if Bson.eqb (_id doc) oid
      then {| _id := _id doc;
              fields := {| Cart.user_id := Cart.user_id (fields doc);
                           Cart.items := its |} |} :: c'
      else doc :: set_items oid its c'
  end.

Definition with_cart (c : Collection Cart.t) (d : t) : t :=
  {| user := user d; product := product d; cart := c; order := order d;
     next_oid := next_oid d |}.

End Database.

Import Database.


(** ** Outcomes and the handler monad *)

(** Exceptions that no handler catches (the framework answers HTTP 500). *)
Inductive exn : Type :=
| InvalidId          (* bson.errors.InvalidId, from [ObjectId(s)] *)
| ValidationError    (* pydantic, from the constructor of a schema *)
| TypeError          (* subscripting [db] when it is [None] *)
| Unconfigured.      (* the store is absent *)

(** What a handler does: it returns a body (HTTP 200), raises
    [HTTPException(status_code, detail)], or lets an exception escape. *)
Inductive result (A : Type) : Type :=
| Return (a : A)
| HTTPException (status_code : Z) (detail : string)
| Raise (e : exn).
Arguments Return {A} a.
Arguments HTTPException {A} status_code detail.
Arguments Raise {A} e.

(** The global [db] of database.py is [None] when the store is not
    configured.  A handler reads and updates it. *)
Definition M (A : Type) : Type :=
  option Database.t -> option Database.t * result A.

Definition ret {A : Type} (a : A) : M A := fun db => (db, Return a).

Definition http {A : Type} (status_code : Z) (detail : string) : M A :=
  fun db => (db, HTTPException status_code detail).

Definition raise {A : Type} (e : exn) : M A := fun db => (db, Raise e).

Definition bind {A B : Type} (m : M A) (k : A -> M B) : M B :=
  fun db =>
    match m db with
    | (db', Return a) => k a db'
    | (db', HTTPException c d) => (db', HTTPException c d)
    | (db', Raise e) => (db', Raise e)
    end.

Notation "x <- m ;; k" := (bind m (fun x => k))
  (at level 61, m at next level, right associativity).

(** ** Store operations used by main.py *)

(** [db["user"].find_one({"email": email}) if db else None] *)
Definition find_one_user (email : string) : M (option (Doc User.t)) :=
  fun db =>
    match db with
    | None => (db, Return None)
    | Some d =>
        (db, Return (find (fun u => String.eqb (User.email (fields u)) email) (user d)))
    end.

(** [db["product"].find_one({"_id": ObjectId(pid)}) if db else None] *)
Definition find_one_product (pid : string) : M (option (Doc Product.t)) :=
  fun db =>
    match db with
    | None => (db, Return None)
    | Some d =>
        match Bson.parse pid with
        | None => (db, Raise InvalidId)
        | Some oid => (db, Return (find (fun p => Bson.eqb (_id p) oid) (product d)))
        end
    end.

(** [db["cart"].find_one({"user_id": uid}) if db else None] *)
Definition find_one_cart (uid : string) : M (option (Doc Cart.t)) :=
  fun db =>
    match db with
    | None => (db, Return None)
    | Some d =>
        (db, Return (find (fun c => String.eqb (Cart.user_id (fields c)) uid) (cart d)))
    end.

(** [db["cart"].update_one({"_id": oid}, {"$set": {"items": its}})] *)
Definition update_one_cart (oid : Bson.ObjectId) (its : list CartItem.t) : M unit :=
  fun db =>
    match db with
    | None => (db, Raise TypeError)
    | Some d => (Some (with_cart (set_items oid its (cart d)) d), Return tt)
    end.

(** Modelled from the spec: [create_document] of database.py, which is not
    among the sources.  The spec gives the store an insert that assigns an
    opaque identifier and returns it as a string; an absent store is its
    error Unconfigured.  The identifier is taken from the counter
    [next_oid] of the store. *)
Definition create_document (x : data) : M string :=
  fun db =>
    match db with
    | None => (db, Raise Unconfigured)
    | Some d =>
        let oid := Bson.of_N (next_oid d) in
        (Some (insert_one oid x d), Return (Bson.str oid))
    end.

(** Modelled from the spec: [get_documents] of database.py on the product
    collection, the find-many of the store. *)
Definition get_documents_product : M (list (Doc Product.t)) :=
  fun db =>
    match db with
    | None => (db, Raise Unconfigured)
    | Some d => (db, Return (product d))
    end.

(** passlib's [CryptContext]: only [hash] and [verify] are used. *)
Record CryptContext : Type := {
  hash : string -> string;
  verify : string -> string -> bool
}.

(** ** main.py: the handlers *)

Definition detail_email_taken : string := "Email sudah terdaftar".
Definition detail_bad_login : string := "Email atau password salah".
Definition detail_no_product : string := "Produk tidak ditemukan".
Definition detail_cart_empty : string := "Keranjang kosong".

Definition register (pwd_context : CryptContext) (user : UserCreate.t) : M Account.t :=
  existing <- find_one_user (UserCreate.email user) ;;
  match existing with
  | Some _ => http 400 detail_email_taken
  | None =>
      let password_hash := hash pwd_context (UserCreate.password user) in
      let user_doc :=
        {| User.name := UserCreate.name user;
           User.email := UserCreate.email user;
           User.password_hash := password_hash;
           User.address := None;
           User.phone := None;
           User.is_active := true |} in
      user_id <- create_document (in_user user_doc) ;;
      ret {| Account.user_id := user_id;
             Account.name := UserCreate.name user;
             Account.email := UserCreate.email user |}
  end.

Definition login (pwd_context : CryptContext) (creds : UserLogin.t) : M Account.t :=
  doc <- find_one_user (UserLogin.email creds) ;;
  match doc with
  | None => http 401 detail_bad_login
  | Some doc =>
      if negb (verify pwd_context (UserLogin.password creds)
                      (User.password_hash (fields doc)))
      then http 401 detail_bad_login
      else ret {| Account.user_id := Bson.str (_id doc);
                  Account.name := User.name (fields doc);
                  Account.email := User.email (fields doc) |}
  end.

(** [ProductSchema] applied to the fields of [p]: the constructor of
    schemas.Product checks [ge=0] on the price and sets [in_stock]; [None]
    stands for its ValidationError. *)
Definition ProductSchema (p : ProductCreate.t) : option Product.t :=
  if PrimFloat.leb 0 (ProductCreate.price p)
  then Some {| Product.title := ProductCreate.title p;
               Product.description := ProductCreate.description p;
               Product.price := ProductCreate.price p;
               Product.category := ProductCreate.category p;
               Product.image_url := ProductCreate.image_url p;
               Product.in_stock := true |}
  else None.

(** The body of the reply is [{"product_id": prod_id}]. *)
Definition create_product (p : ProductCreate.t) : M string :=
  match ProductSchema p with
  | None => raise ValidationError
  | Some prod =>
      prod_id <- create_document (in_product prod) ;;
      ret prod_id
  end.

Definition list_products : M (list Listed.t) :=
  docs <- get_documents_product ;;
  ret (map (fun d => {| Listed.id := Bson.str (_id d); Listed.fields := fields d |}) docs).

(** The loop of [add_to_cart] over the items of an existing cart: the first
    item with the product id gets [qty] added and the loop breaks; the
    boolean is [found]. *)
Fixpoint bump (pid : string) (qty : Z) (items : list CartItem.t)
  : list CartItem.t * bool :=
  match items with
  | [] => ([], false)
  | it :: rest =>
      if String.eqb (CartItem.product_id it) pid
      then ({| CartItem.product_id := CartItem.product_id it;
               CartItem.quantity := CartItem.quantity it + qty |} :: rest, true)
      else let (rest', found) := bump pid qty rest in (it :: rest', found)
  end.

(** The body of the reply is [{"status": "ok"}]. *)
Definition add_to_cart (payload : AddToCart.t) : M string :=
  let uid := AddToCart.user_id payload in
  let pid := AddToCart.product_id payload in
  let qty := Py.max1 (AddToCart.quantity payload) in
  prod <- find_one_product pid ;;
  match prod with
  | None => http 404 detail_no_product
  | Some _ =>
      cart <- find_one_cart uid ;;
      match cart with
      | None =>
          let cart_doc :=
            {| Cart.user_id := uid;
               Cart.items := [{| CartItem.product_id := pid;
                                 CartItem.quantity := qty |}] |} in
          _ <- create_document (in_cart cart_doc) ;;
          ret "ok"
      | Some cart =>
          let (items, found) := bump pid qty (Cart.items (fields cart)) in
          let items :=
            if found then items
            else items ++ [{| CartItem.product_id := pid;
                              CartItem.quantity := qty |}] in
          _ <- update_one_cart (_id cart) items ;;
          ret "ok"
      end
  end.

(** The loop of [get_cart]: [items] and [total] are the two accumulators. *)
Fixpoint get_cart_loop (its : list CartItem.t) (items : list CartLine.t)
         (total : float) : M (list CartLine.t * float) :=
  match its with
  | [] => ret (items, total)
  | it :: its' =>
      prod <- find_one_product (CartItem.product_id it) ;;
      match prod with
      | None => get_cart_loop its' items total
      | Some prod =>
          let price := Product.price (fields prod) in
          let subtotal := Py.mul_int price (CartItem.quantity it) in
          get_cart_loop its'
            (items ++ [{| CartLine.product_id := Bson.str (_id prod);
                          CartLine.title := Product.title (fields prod);
                          CartLine.image_url := Product.image_url (fields prod);
                          CartLine.price := price;
                          CartLine.quantity := CartItem.quantity it;
                          CartLine.subtotal := subtotal |}])
            (PrimFloat.add total subtotal)
      end
  end.

Definition get_cart (user_id : string) : M CartView.t :=
  cart <- find_one_cart user_id ;;
  match cart with
  | None => ret {| CartView.items := []; CartView.total := Py.Int 0 |}
  | Some cart =>
      r <- get_cart_loop (Cart.items (fields cart)) [] PrimFloat.zero ;;
      ret {| CartView.items := fst r; CartView.total := Py.Float (snd r) |}
  end.

(** The loop of [checkout]: [order_items] and [total] are the two
    accumulators. *)
Fixpoint checkout_loop (its : list CartItem.t) (order_items : list OrderItem.t)
         (total : float) : M (list OrderItem.t * float) :=
  match its with
  | [] => ret (order_items, total)
  | it :: its' =>
      prod <- find_one_product (CartItem.product_id it) ;;
      match prod with
      | None => checkout_loop its' order_items total
      | Some prod =>
          let price := Product.price (fields prod) in
          let qty := CartItem.quantity it in
          checkout_loop its'
            (order_items ++ [{| OrderItem.product_id := Bson.str (_id prod);
                                OrderItem.quantity := qty;
                                OrderItem.price := price |}])
            (PrimFloat.add total (Py.mul_int price qty))
      end
  end.

(** The guard is [not cart or not cart.get("items")]: a missing cart, then
    an empty item list. *)
Definition checkout (req : CheckoutRequest.t) : M Receipt.t :=
  cart <- find_one_cart (CheckoutRequest.user_id req) ;;
  match cart with
  | None => http 400 detail_cart_empty
  | Some c =>
      match Cart.items (fields c) with
      | [] => http 400 detail_cart_empty
      | _ :: _ =>
          r <- checkout_loop (Cart.items (fields c)) [] PrimFloat.zero ;;
          let order :=
            {| Order.user_id := CheckoutRequest.user_id req;
               Order.items := fst r;
               Order.total := snd r;
               Order.status := "pending" |} in
          order_id <- create_document (in_order order) ;;
          _ <- update_one_cart (_id c) [] ;;
          ret {| Receipt.order_id := order_id;
                 Receipt.total := snd r;
                 Receipt.status := "created" |}
      end
  end.

(** *** The chat responder *)

Definition answer_acne : string :=
  "Untuk masalah jerawat, gunakan pembersih lembut, toner BHA, dan pelembap non-comedogenic. Tambahkan serum dengan niacinamide.".
Definition answer_dull : string :=
  "Kulit kusam? Coba exfoliasi AHA 2-3x/minggu dan serum vitamin C pagi hari, selalu gunakan sunscreen.".
Definition answer_dry : string :=
  "Kulit kering? Gunakan cleanser lembut, hydrating toner, serum hyaluronic acid, dan pelembap occlusive.".
Definition answer_oily : string :=
  "Kulit berminyak? Pilih gel moisturizer, hindari cleanser terlalu keras, dan gunakan niacinamide + zinc.".
Definition answer_generic : string :=
  "Ceritakan masalah kulit Anda (jerawat, kusam, kering, berminyak) dan saya akan bantu rekomendasi rutinitas.".

(** The body of the reply is [{"answer": answer}]. *)
Definition chat (req : ChatRequest.t) : string :=
  let q := Py.lower (ChatRequest.question req) in
  if Py.any_in ["jerawat"; "acne"; "beruntusan"] q then answer_acne
  else if Py.any_in ["kusam"; "dull"; "pencerah"] q then answer_dull
  else if Py.any_in ["kering"; "dry"; "dehidrasi"] q then answer_dry
  else if Py.any_in ["berminyak"; "oily"; "minyak"] q then answer_oily
  else answer_generic.

(** ** Sequences of requests *)

Inductive request : Type :=
| Register (user : UserCreate.t)
| Login (creds : UserLogin.t)
| CreateProduct (p : ProductCreate.t)
| ListProducts
| AddItem (payload : AddToCart.t)
| GetCart (user_id : string)
| Checkout (req : CheckoutRequest.t)
| Chat (req : ChatRequest.t).

(** The store after one request. *)
Definition handle (pwd_context : CryptContext) (db : option Database.t)
           (r : request) : option Database.t :=
  match r with
  | Register user => fst (register pwd_context user db)
  | Login creds => fst (login pwd_context creds db)
  | CreateProduct p => fst (create_product p db)
  | ListProducts => fst (list_products db)
  | AddItem payload => fst (add_to_cart payload db)
  | GetCart user_id => fst (get_cart user_id db)
  | Checkout req => fst (checkout req db)
  | Chat _ => db
  end.

(** The store after a sequence of requests, served one after the other. *)
Definition run (pwd_context : CryptContext) (rs : list request)
           (db : option Database.t) : option Database.t :=
  fold_left (handle pwd_context) rs db.

(** ** Vocabulary of the specification *)

Definition users (db : option Database.t) : Collection User.t :=
  match db with Some d => user d | None => [] end.

Definition products (db : option Database.t) : Collection Product.t :=
  match db with Some d => product d | None => [] end.

Definition carts (db : option Database.t) : Collection Cart.t :=
  match db with Some d => cart d | None => [] end.

Definition orders (db : option Database.t) : Collection Order.t :=
  match db with Some d => order d | None => [] end.

(** The cart of a user: the first cart document that carries the user id. *)
Definition user_cart (db : option Database.t) (uid : string) : option (Doc Cart.t) :=
  find (fun c => String.eqb (Cart.user_id (fields c)) uid) (carts db).

(** No cart document carries the user id. *)
Definition no_cart (db : option Database.t) (uid : string) : Prop :=
  forall c, In c (carts db) -> Cart.user_id (fields c) <> uid.

(** The user document with an email, and the absence of one. *)
Definition user_by_email (db : option Database.t) (email : string) : option (Doc User.t) :=
  find (fun u => String.eqb (User.email (fields u)) email) (users db).

Definition no_user (db : option Database.t) (email : string) : Prop :=
  forall u, In u (users db) -> User.email (fields u) <> email.

(** The product a product id resolves to in the catalog, if any: the id
    must name an identifier and a product must carry it. *)
Definition resolve (db : option Database.t) (pid : string) : option (Doc Product.t) :=
  match Bson.parse pid with
  | None => None
  | Some oid => find (fun p => Bson.eqb (_id p) oid) (products db)
  end.

(** The product id of every item names an identifier.  [add_to_cart] only
    stores such items. *)
Definition valid_items (its : list CartItem.t) : Prop :=
  Forall (fun it => Bson.parse (CartItem.product_id it) <> None) its.

(** At most one entry per product id. *)
Definition distinct_products (its : list CartItem.t) : Prop :=
  NoDup (map CartItem.product_id its).

(** The identifiers of a collection identify its documents. *)
Definition unique_ids {A : Type} (c : Collection A) : Prop :=
  NoDup (map (@_id A) c).

(** The items of a cart that resolve, in cart order, each with its product. *)
Definition priced (db : option Database.t) (its : list CartItem.t)
  : list (CartItem.t * Doc Product.t) :=
  flat_map (fun it =>
              match resolve db (CartItem.product_id it) with
              | Some p => [(it, p)]
              | None => []
              end) its.

(** Current catalog price times quantity. *)
Definition line_value (l : CartItem.t * Doc Product.t) : float :=
  Py.mul_int (Product.price (fields (snd l))) (CartItem.quantity (fst l)).

(** The plain float sum, left to right from [0.0]. *)
Definition fsum (xs : list float) : float :=
  fold_left PrimFloat.add xs PrimFloat.zero.

Definition cart_line (l : CartItem.t * Doc Product.t) : CartLine.t :=
  {| CartLine.product_id := Bson.str (_id (snd l));
     CartLine.title := Product.title (fields (snd l));
     CartLine.image_url := Product.image_url (fields (snd l));
     CartLine.price := Product.price (fields (snd l));
     CartLine.quantity := CartItem.quantity (fst l);
     CartLine.subtotal := line_value l |}.

Definition order_line (l : CartItem.t * Doc Product.t) : OrderItem.t :=
  {| OrderItem.product_id := Bson.str (_id (snd l));
     OrderItem.quantity := CartItem.quantity (fst l);
     OrderItem.price := Product.price (fields (snd l)) |}.

(** Price times quantity of an order item. *)
Definition order_item_value (oi : OrderItem.t) : float :=
  Py.mul_int (OrderItem.price oi) (OrderItem.quantity oi).

(** A cart document with its item list replaced. *)
Definition with_items (c : Doc Cart.t) (its : list CartItem.t) : Doc Cart.t :=
  {| _id := _id c;
     fields := {| Cart.user_id := Cart.user_id (fields c); Cart.items := its |} |}.


(** The responder as a table: keyword sets with their answers, in priority
    order. *)
Definition rules : list (list string * string) :=
  [ (["jerawat"; "acne"; "beruntusan"], answer_acne);
    (["kusam"; "dull"; "pencerah"], answer_dull);
    (["kering"; "dry"; "dehidrasi"], answer_dry);
    (["berminyak"; "oily"; "minyak"], answer_oily) ].

(** [w] occurs in [q] up to the case of letters. *)
Definition occurs_ci (w q : string) : Prop :=
  exists a m b, q = (a ++ m ++ b)%string /\ Py.lower m = Py.lower w.

(** A keyword set matches a question when one of its keywords occurs in
    it, case-insensitively. *)
Definition matches (ks : list string) (q : string) : Prop :=
  exists k, In k ks /\ occurs_ci k q.

(** The answer of the first rule in the table whose keyword set matches
    according to [test], and the fallback when none does. *)
Fixpoint first_match (test : list string -> bool) (rs : list (list string * string))
         (fallback : string) : string :=
  match rs with
  | [] => fallback
  | (ks, a) :: rs' => if test ks then a else first_match test rs' fallback
  end.

(** Every cart of the store has at most one entry per product id, and
    product ids that name identifiers. *)
Definition carts_ok (db : option Database.t) : Prop :=
  forall c, In c (carts db) ->
    distinct_products (Cart.items (fields c)) /\ valid_items (Cart.items (fields c)).

(** Every product of the store has a price of at least zero. *)
Definition prices_ok (db : option Database.t) : Prop :=
  forall p, In p (products db) -> PrimFloat.leb 0 (Product.price (fields p)) = true.

(** The order that [checkout] builds from the items of a cart: one order
    item for each item that resolves, at the current catalog price. *)
Definition placed_order (db : option Database.t) (uid : string)
           (its : list CartItem.t) : Order.t :=
  {| Order.user_id := uid;
     Order.items := map order_line (priced db its);
     Order.total := fsum (map line_value (priced db its));
     Order.status := "pending" |}.

(** The identifier the store assigns next. *)
Definition next_id (d : Database.t) : Bson.ObjectId := Bson.of_N (next_oid d).

(** ** Example data *)

Definition demo_context : CryptContext :=
  {| hash := fun p => ("h:" ++ p)%string;
     verify := fun p h => String.eqb h ("h:" ++ p)%string |}.

Definition product_A : ProductCreate.t :=
  {| ProductCreate.title := "A"; ProductCreate.description := None;
     ProductCreate.price := 100000%float; ProductCreate.category := "serum";
     ProductCreate.image_url := None |}.

Definition product_B : ProductCreate.t :=
  {| ProductCreate.title := "B"; ProductCreate.description := None;
     ProductCreate.price := 50000%float; ProductCreate.category := "toner";
     ProductCreate.image_url := None |}.

Definition id_A : string := "000000000000000000000001".
Definition id_B : string := "000000000000000000000002".

Definition add_item (uid pid : string) (q : Z) : request :=
  AddItem {| AddToCart.user_id := uid; AddToCart.product_id := pid;
             AddToCart.quantity := q |}.

(** The scenario of the specification: one user, products A and B, two of
    A and one of B in the cart of the user. *)
Definition scenario_requests : list request :=
  [ Register {| UserCreate.name := "Sari"; UserCreate.email := "sari@example.com";
                UserCreate.password := "rahasia" |};
    CreateProduct product_A; CreateProduct product_B;
    add_item "u1" id_A 2; add_item "u1" id_B 1 ].

Definition scenario_db : Database.t :=
  Eval vm_compute in
    match run demo_context scenario_requests (Some Database.empty) with
    | Some d => d
    | None => Database.empty
    end.

Definition scenario_cart : Doc Cart.t :=
  Eval vm_compute in
    match user_cart (Some scenario_db) "u1" with
    | Some c => c
    | None => {| _id := []; fields := {| Cart.user_id := ""; Cart.items := [] |} |}
    end.

(** A store whose only cart names a product that the catalog does not
    hold. *)
Definition orphan_cart : Doc Cart.t :=
  {| _id := Bson.of_N 7;
     fields := {| Cart.user_id := "u2";
                  Cart.items := [{| CartItem.product_id := "00000000000000000000000a";
                                    CartItem.quantity := 3 |}] |} |}.

Definition orphan_db : Database.t :=
  {| user := []; product := []; cart := [orphan_cart]; order := []; next_oid := 8 |}.


Definition scenario_user : Doc User.t :=
  Eval vm_compute in
    match user_by_email (Some scenario_db) "sari@example.com" with
    | Some u => u
    | None => {| _id := [];
                 fields := {| User.name := ""; User.email := ""; User.password_hash := "";
                              User.address := None; User.phone := None;
                              User.is_active := false |} |}
    end.

(** A cart whose second item names a product that the catalog does not
    hold, in a store with the products A and B. *)
Definition mixed_cart : Doc Cart.t :=
  {| _id := Bson.of_N 9;
     fields := {| Cart.user_id := "u3";
                  Cart.items := [{| CartItem.product_id := id_A; CartItem.quantity := 2 |};
                                 {| CartItem.product_id := "00000000000000000000000a";
                                    CartItem.quantity := 3 |};
                                 {| CartItem.product_id := id_B; CartItem.quantity := 1 |}] |} |}.

Definition mixed_db : Database.t :=
  {| user := []; product := product scenario_db; cart := [mixed_cart]; order := [];
     next_oid := 10 |}.


Definition scenario_product_A : Doc Product.t :=
  Eval vm_compute in
    match resolve (Some scenario_db) id_A with
    | Some p => p
    | None => {| _id := [];
                 fields := {| Product.title := ""; Product.description := None;
                              Product.price := 0%float; Product.category := "";
                              Product.image_url := None; Product.in_stock := false |} |}
    end.


(** The four keyword sets of the responder. *)
Definition kw_acne : list string := ["jerawat"; "acne"; "beruntusan"].
Definition kw_dull : list string := ["kusam"; "dull"; "pencerah"].
Definition kw_dry : list string := ["kering"; "dry"; "dehidrasi"].
Definition kw_oily : list string := ["berminyak"; "oily"; "minyak"].


(** Every cart identifier was assigned by the store: it is the identifier
    of a counter value below [next_oid]. *)
Definition stamped (d : Database.t) : Prop :=
  Forall (fun o => exists k, (k < next_oid d)%N /\ o = Bson.of_N k)
         (map (@_id Cart.t) (cart d)).

(** What one request may do to the cart identifiers and to the counter:
    the counter grows by at most one, and the identifiers stay or the
    identifier of the old counter value is appended. *)
Definition step_ids (d d' : Database.t) : Prop :=
  (next_oid d <= next_oid d' <= N.succ (next_oid d))%N /\
  (map (@_id Cart.t) (cart d') = map (@_id Cart.t) (cart d) \/
   (map (@_id Cart.t) (cart d') = map (@_id Cart.t) (cart d) ++ [Bson.of_N (next_oid d)] /\
    next_oid d' = N.succ (next_oid d))).

(** Closed instances of [valid_items], [unique_ids] and [distinct_products]. *)
Ltac concrete_list :=
  unfold valid_items, unique_ids, distinct_products; simpl;
  repeat (constructor; simpl);
  try (intros H; vm_compute in H; discriminate H);
  try (intros H; vm_compute in H; intuition discriminate).


(** ** Further vocabulary: accounts *)

(** The user document that [register] builds for a request. *)
Definition user_doc (pwd_context : CryptContext) (user : UserCreate.t) : User.t :=
  {| User.name := UserCreate.name user;
     User.email := UserCreate.email user;
     User.password_hash := hash pwd_context (UserCreate.password user);
     User.address := None;
     User.phone := None;
     User.is_active := true |}.

(** The account a user document stands for in a reply. *)
Definition account_of (u : Doc User.t) : Account.t :=
  {| Account.user_id := Bson.str (_id u);
     Account.name := User.name (fields u);
     Account.email := User.email (fields u) |}.

(** No two user documents carry the same email. *)
Definition emails_unique (db : option Database.t) : Prop :=
  NoDup (map (fun u => User.email (fields u)) (users db)).

Definition sari : UserCreate.t :=
  {| UserCreate.name := "Sari"; UserCreate.email := "sari@example.com";
     UserCreate.password := "rahasia" |}.

Definition sari_login : UserLogin.t :=
  {| UserLogin.email := "sari@example.com"; UserLogin.password := "rahasia" |}.


(** ** Further vocabulary: carts *)

(** The entry that [add_to_cart] makes for a request. *)
Definition new_item (payload : AddToCart.t) : CartItem.t :=
  {| CartItem.product_id := AddToCart.product_id payload;
     CartItem.quantity := Py.max1 (AddToCart.quantity payload) |}.

(** A second user with a cart of its own, beside the cart of "u1". *)
Definition two_carts_db : Database.t :=
  Eval vm_compute in
    match run demo_context (scenario_requests ++ [add_item "u2" id_B 4])
              (Some Database.empty) with
    | Some d => d
    | None => Database.empty
    end.


(** ** Further vocabulary: invariants of the store *)

(** Every quantity in every cart is at least 1. *)
Definition quantities_ok (db : option Database.t) : Prop :=
  forall c, In c (carts db) ->
    Forall (fun it => (1 <= CartItem.quantity it)%Z) (Cart.items (fields c)).

(** No two cart documents carry the same user id. *)
Definition one_cart_per_user (db : option Database.t) : Prop :=
  NoDup (map (fun c => Cart.user_id (fields c)) (carts db)).

(** Every product id in every cart resolves to a product of the catalog. *)
Definition carts_resolve (db : option Database.t) : Prop :=
  forall c, In c (carts db) ->
    Forall (fun it => resolve db (CartItem.product_id it) <> None)
           (Cart.items (fields c)).

(** The item list that [add_to_cart] writes back into an existing cart. *)
Definition updated_items (payload : AddToCart.t) (its : list CartItem.t)
  : list CartItem.t :=
  let b := bump (AddToCart.product_id payload)
                (Py.max1 (AddToCart.quantity payload)) its in
  if snd b then fst b else fst b ++ [new_item payload].


(** ** Further vocabulary: outcomes of requests *)

(** The handler returned a body (HTTP 200). *)
Definition succeeded {A : Type} (r : result A) : bool :=
  match r with
  | Return _ => true
  | HTTPException _ _ => false
  | Raise _ => false
  end.

(** One request served: the store afterwards and whether the handler
    returned. *)
Definition serve (pwd_context : CryptContext) (db : option Database.t)
           (r : request) : option Database.t * bool :=
  match r with
  | Register user =>
      let x := register pwd_context user db in (fst x, succeeded (snd x))
  | Login creds =>
      let x := login pwd_context creds db in (fst x, succeeded (snd x))
  | CreateProduct p =>
      let x := create_product p db in (fst x, succeeded (snd x))
  | ListProducts =>
      let x := list_products db in (fst x, succeeded (snd x))
  | AddItem payload =>
      let x := add_to_cart payload db in (fst x, succeeded (snd x))
  | GetCart user_id =>
      let x := get_cart user_id db in (fst x, succeeded (snd x))
  | Checkout req =>
      let x := checkout req db in (fst x, succeeded (snd x))
  | Chat _ => (db, true)
  end.

(** The requests that are served by a GET route or only compute an
    answer. *)
Definition reads_only (r : request) : bool :=
  match r with
  | Login _ | ListProducts | GetCart _ | Chat _ => true
  | Register _ | CreateProduct _ | AddItem _ | Checkout _ => false
  end.


(** ** Further vocabulary: identifiers *)

(** The identifiers [ids] were assigned from a counter that now stands at
    [n]: they are distinct, and each is the identifier of a smaller counter
    value. *)
Definition assigned (n : N) (ids : list Bson.ObjectId) : Prop :=
  NoDup ids /\ Forall (fun o => exists k, (k < n)%N /\ o = Bson.of_N k) ids.

(** The request that adds [q] of the product [pid] to the cart of [uid]. *)
Definition add_request (uid pid : string) (q : Z) : AddToCart.t :=
  {| AddToCart.user_id := uid; AddToCart.product_id := pid; AddToCart.quantity := q |}.





(** * Properties *)

(** ** Lookups *)

Lemma find_all_false {A : Type} (f : A -> bool) (l : list A) :
  (forall x, In x l -> f x = false) -> find f l = None.
Proof.
  induction l as [|a l IH]; intros H; simpl.
  - reflexivity.
  - rewrite (H a (or_introl eq_refl)). apply IH.
    intros x Hx. apply H. right. exact Hx.
Qed.

Lemma find_one_cart_eq (uid : string) (db : option Database.t) :
  find_one_cart uid db = (db, Return (user_cart db uid)).
Proof. destruct db; reflexivity. Qed.

Lemma find_one_user_eq (email : string) (db : option Database.t) :
  find_one_user email db = (db, Return (user_by_email db email)).
Proof. destruct db; reflexivity. Qed.

Lemma no_cart_user_cart (db : option Database.t) (uid : string) :
  no_cart db uid <-> user_cart db uid = None.
Proof.
  unfold no_cart, user_cart. split.
  - intros H. apply find_all_false. intros c Hc.
    apply String.eqb_neq. apply H. exact Hc.
  - intros H c Hc. apply String.eqb_neq.
    exact (find_none _ _ H c Hc).
Qed.

Lemma user_cart_In (db : option Database.t) (uid : string) (c : Doc Cart.t) :
  user_cart db uid = Some c -> In c (carts db) /\ Cart.user_id (fields c) = uid.
Proof.
  unfold user_cart. intros H. apply find_some in H. destruct H as [Hin He].
  split; [exact Hin | apply String.eqb_eq; exact He].
Qed.

Lemma no_user_user_by_email (db : option Database.t) (email : string) :
  no_user db email <-> user_by_email db email = None.
Proof.
  unfold no_user, user_by_email. split.
  - intros H. apply find_all_false. intros u Hu.
    apply String.eqb_neq. apply H. exact Hu.
  - intros H u Hu. apply String.eqb_neq.
    exact (find_none _ _ H u Hu).
Qed.

Lemma find_one_product_eq (d : Database.t) (pid : string) (oid : Bson.ObjectId) :
  Bson.parse pid = Some oid ->
  find_one_product pid (Some d) = (Some d, Return (resolve (Some d) pid)).
Proof.
  intros H. unfold find_one_product, resolve. rewrite H. reflexivity.
Qed.

Lemma find_one_product_invalid (d : Database.t) (pid : string) :
  Bson.parse pid = None ->
  find_one_product pid (Some d) = (Some d, Raise InvalidId).
Proof.
  intros H. unfold find_one_product. rewrite H. reflexivity.
Qed.

(** ** Checkout on a missing or empty cart *)

(** C2: when the user has no cart, or the cart has an empty item list,
    [checkout] raises HTTPException 400 with the detail "Keranjang kosong"
    and leaves the store as it was, so no order is created. *)
Theorem checkout_empty_cart_400 :
  forall (db : option Database.t) (req : CheckoutRequest.t),
    no_cart db (CheckoutRequest.user_id req) \/
    (exists c, user_cart db (CheckoutRequest.user_id req) = Some c /\
               Cart.items (fields c) = []) ->
    checkout req db = (db, HTTPException 400 "Keranjang kosong") /\
    orders (fst (checkout req db)) = orders db.
Proof.
  intros db req H.
  assert (E : checkout req db = (db, HTTPException 400 "Keranjang kosong")).
  { unfold checkout, bind. rewrite find_one_cart_eq.
    destruct H as [H | [c [Hc Hi]]].
    - apply no_cart_user_cart in H. rewrite H. reflexivity.
    - rewrite Hc, Hi. reflexivity. }
  rewrite E. split; reflexivity.
Qed.

Lemma checkout_empty_cart_400_witness :
  checkout {| CheckoutRequest.user_id := "u1" |} (Some Database.empty)
  = (Some Database.empty, HTTPException 400 "Keranjang kosong") /\
  orders (fst (checkout {| CheckoutRequest.user_id := "u1" |} (Some Database.empty)))
  = orders (Some Database.empty).
Proof.
  apply (checkout_empty_cart_400 (Some Database.empty) {| CheckoutRequest.user_id := "u1" |}).
  left. intros c Hc. simpl in Hc. contradiction.
Defined.

(** ** The cart view of a user without a cart *)

(** C5: when no cart document carries the user id, [get_cart] returns the
    view with no items and the total 0; it raises nothing and leaves the
    store as it was. *)
Theorem get_cart_no_cart :
  forall (db : option Database.t) (uid : string),
    no_cart db uid ->
    get_cart uid db =
    (db, Return {| CartView.items := []; CartView.total := Py.Int 0 |}).
Proof.
  intros db uid H. unfold get_cart, bind. rewrite find_one_cart_eq.
  apply no_cart_user_cart in H. rewrite H. reflexivity.
Qed.

Lemma get_cart_no_cart_witness :
  get_cart "u1" None =
  (None, Return {| CartView.items := []; CartView.total := Py.Int 0 |}).
Proof.
  apply (get_cart_no_cart None "u1").
  intros c Hc. simpl in Hc. contradiction.
Defined.

(** ** Login failures *)

(** C8: a login with an email that no user document carries and a login
    with a known email whose password fails verification have the same
    outcome: HTTPException 401 with the detail "Email atau password salah",
    the store unchanged. *)
Theorem login_failures_indistinguishable :
  forall (pwd_context : CryptContext) (db : option Database.t)
         (unknown wrong : UserLogin.t) (u : Doc User.t),
    no_user db (UserLogin.email unknown) ->
    user_by_email db (UserLogin.email wrong) = Some u ->
    verify pwd_context (UserLogin.password wrong) (User.password_hash (fields u)) = false ->
    login pwd_context unknown db = (db, HTTPException 401 "Email atau password salah") /\
    login pwd_context wrong db = (db, HTTPException 401 "Email atau password salah").
Proof.
  intros pwd_context db unknown wrong u Hno Hu Hv. split.
  - unfold login, bind. rewrite find_one_user_eq.
    apply no_user_user_by_email in Hno. rewrite Hno. reflexivity.
  - unfold login, bind. rewrite find_one_user_eq, Hu, Hv. reflexivity.
Qed.

(** ** Adding an unknown product *)

Lemma add_to_cart_unconfigured (payload : AddToCart.t) :
  add_to_cart payload None = (None, HTTPException 404 "Produk tidak ditemukan").
Proof. reflexivity. Qed.

(** A product id that names an identifier which no product carries is
    answered by HTTPException 404, the store unchanged. *)
Lemma add_to_cart_unknown_product (d : Database.t) (payload : AddToCart.t)
      (oid : Bson.ObjectId) :
  Bson.parse (AddToCart.product_id payload) = Some oid ->
  resolve (Some d) (AddToCart.product_id payload) = None ->
  add_to_cart payload (Some d) = (Some d, HTTPException 404 "Produk tidak ditemukan").
Proof.
  intros Hp Hr. unfold add_to_cart, bind.
  rewrite (find_one_product_eq d _ oid Hp), Hr. reflexivity.
Qed.

(** C3, at the failing input: the product id "abc" resolves to no product
    of any store, yet on a configured store [add_to_cart] does not raise
    HTTPException 404: [ObjectId("abc")] raises InvalidId, which no handler
    catches.  The store is unchanged. *)
Theorem add_to_cart_malformed_product_id :
  forall (d : Database.t) (uid : string) (q : Z),
    let payload := {| AddToCart.user_id := uid;
                      AddToCart.product_id := "abc";
                      AddToCart.quantity := q |} in
    resolve (Some d) "abc" = None /\
    add_to_cart payload (Some d) = (Some d, Raise InvalidId) /\
    add_to_cart payload (Some d) <> (Some d, HTTPException 404 "Produk tidak ditemukan").
Proof.
  intros d uid q payload. split; [reflexivity | split].
  - reflexivity.
  - discriminate.
Qed.

(** ** Identifiers *)

Lemma Bson_eqb_eq (a b : Bson.ObjectId) : Bson.eqb a b = true <-> a = b.
Proof.
  revert b. induction a as [|x a IH]; intros [|y b]; simpl; split; intros H;
    try reflexivity; try discriminate.
  - apply andb_true_iff in H. destruct H as [Hx Ha].
    apply Byte.byte_dec_bl in Hx. apply IH in Ha. subst. reflexivity.
  - inversion H; subst. apply andb_true_iff. split.
    + apply Byte.byte_dec_lb. reflexivity.
    + apply IH. reflexivity.
Qed.

Lemma Bson_eqb_refl (a : Bson.ObjectId) : Bson.eqb a a = true.
Proof. apply Bson_eqb_eq. reflexivity. Qed.

(** [update_one] on the identifier of the user's cart replaces the items of
    that cart, provided identifiers are unique in the collection. *)
Lemma set_items_user_cart (cs : Collection Cart.t) (uid : string)
      (c : Doc Cart.t) (its : list CartItem.t) :
  unique_ids cs ->
  find (fun x => String.eqb (Cart.user_id (fields x)) uid) cs = Some c ->
  find (fun x => String.eqb (Cart.user_id (fields x)) uid) (set_items (_id c) its cs)
  = Some (with_items c its).
Proof.
  unfold unique_ids. induction cs as [|doc cs IH]; simpl; intros Hu Hf.
  - discriminate.
  - inversion Hu as [|? ? Hnotin Hu']; subst.
    destruct (String.eqb (Cart.user_id (fields doc)) uid) eqn:E.
    + inversion Hf; subst c. rewrite Bson_eqb_refl. simpl. rewrite E. reflexivity.
    + destruct (Bson.eqb (_id doc) (_id c)) eqn:Eid.
      * apply Bson_eqb_eq in Eid. exfalso. apply Hnotin. rewrite Eid.
        apply in_map. apply find_some in Hf. apply Hf.
      * simpl. rewrite E. apply IH; assumption.
Qed.

(** ** The pricing loops *)

Lemma valid_items_cons (it : CartItem.t) (its : list CartItem.t) :
  valid_items (it :: its) ->
  (exists oid, Bson.parse (CartItem.product_id it) = Some oid) /\ valid_items its.
Proof.
  unfold valid_items. intros H. inversion H as [|? ? H1 H2]; subst. split.
  - destruct (Bson.parse (CartItem.product_id it)) as [oid|].
    + exists oid. reflexivity.
    + contradiction.
  - exact H2.
Qed.

Lemma checkout_loop_spec (d : Database.t) (its : list CartItem.t) :
  valid_items its ->
  forall (order_items : list OrderItem.t) (total : float),
    checkout_loop its order_items total (Some d) =
    (Some d,
     Return (order_items ++ map order_line (priced (Some d) its),
             fold_left PrimFloat.add (map line_value (priced (Some d) its)) total)).
Proof.
  induction its as [|it its IH]; intros Hv order_items total.
  - simpl. rewrite app_nil_r. reflexivity.
  - apply valid_items_cons in Hv. destruct Hv as [[oid Hoid] Hv].
    simpl. unfold bind. rewrite (find_one_product_eq d _ oid Hoid).
    destruct (resolve (Some d) (CartItem.product_id it)) as [p|]; simpl.
    + rewrite (IH Hv). rewrite <- app_assoc. reflexivity.
    + apply (IH Hv).
Qed.

Lemma get_cart_loop_spec (d : Database.t) (its : list CartItem.t) :
  valid_items its ->
  forall (items : list CartLine.t) (total : float),
    get_cart_loop its items total (Some d) =
    (Some d,
     Return (items ++ map cart_line (priced (Some d) its),
             fold_left PrimFloat.add (map line_value (priced (Some d) its)) total)).
Proof.
  induction its as [|it its IH]; intros Hv items total.
  - simpl. rewrite app_nil_r. reflexivity.
  - apply valid_items_cons in Hv. destruct Hv as [[oid Hoid] Hv].
    simpl. unfold bind. rewrite (find_one_product_eq d _ oid Hoid).
    destruct (resolve (Some d) (CartItem.product_id it)) as [p|]; simpl.
    + rewrite (IH Hv). rewrite <- app_assoc. reflexivity.
    + apply (IH Hv).
Qed.

Lemma priced_In (db : option Database.t) (its : list CartItem.t)
      (it : CartItem.t) (p : Doc Product.t) :
  In (it, p) (priced db its) <->
  In it its /\ resolve db (CartItem.product_id it) = Some p.
Proof.
  unfold priced. rewrite in_flat_map. split.
  - intros [x [Hx Hin]].
    destruct (resolve db (CartItem.product_id x)) as [p'|] eqn:E; simpl in Hin.
    + destruct Hin as [Hin | []]. inversion Hin; subst. split; assumption.
    + contradiction.
  - intros [Hin Hr]. exists it. split; [exact Hin|]. rewrite Hr. left. reflexivity.
Qed.

Lemma priced_items (db : option Database.t) (its : list CartItem.t) :
  map fst (priced db its) =
  filter (fun it => match resolve db (CartItem.product_id it) with
                    | Some _ => true | None => false end) its.
Proof.
  induction its as [|it its IH]; simpl.
  - reflexivity.
  - destruct (resolve db (CartItem.product_id it)); simpl; rewrite IH; reflexivity.
Qed.

Lemma priced_none (db : option Database.t) (its : list CartItem.t) :
  (forall it, In it its -> resolve db (CartItem.product_id it) = None) ->
  priced db its = [].
Proof.
  induction its as [|it its IH]; intros H; simpl.
  - reflexivity.
  - rewrite (H it (or_introl eq_refl)). simpl. apply IH.
    intros x Hx. apply H. right. exact Hx.
Qed.

(** ** Checkout on a populated cart *)

Lemma fsum_order_items (ls : list (CartItem.t * Doc Product.t)) :
  fsum (map order_item_value (map order_line ls)) = fsum (map line_value ls).
Proof. rewrite map_map. reflexivity. Qed.

Lemma fsum_cart_lines (ls : list (CartItem.t * Doc Product.t)) :
  fsum (map CartLine.subtotal (map cart_line ls)) = fsum (map line_value ls).
Proof. rewrite map_map. reflexivity. Qed.

(** The run of [checkout] on a cart with items: the order is inserted, then
    the items of the cart are set to the empty list. *)
Lemma checkout_populated (d : Database.t) (req : CheckoutRequest.t) (c : Doc Cart.t) :
  user_cart (Some d) (CheckoutRequest.user_id req) = Some c ->
  Cart.items (fields c) <> [] ->
  valid_items (Cart.items (fields c)) ->
  checkout req (Some d) =
  (Some (with_cart
           (set_items (_id c) [] (cart d))
           (insert_one (next_id d)
              (in_order (placed_order (Some d) (CheckoutRequest.user_id req)
                                      (Cart.items (fields c)))) d)),
   Return {| Receipt.order_id := Bson.str (next_id d);
             Receipt.total := fsum (map line_value (priced (Some d) (Cart.items (fields c))));
             Receipt.status := "created" |}).
Proof.
  intros Hc Hne Hv. unfold checkout, bind. rewrite find_one_cart_eq, Hc.
  destruct (Cart.items (fields c)) as [|it its] eqn:E; [contradiction|].
  rewrite (checkout_loop_spec d (it :: its) Hv). reflexivity.
Qed.

Lemma get_cart_emptied (d : Database.t) (uid : string) (c : Doc Cart.t) :
  user_cart (Some d) uid = Some (with_items c []) ->
  get_cart uid (Some d) =
  (Some d, Return {| CartView.items := []; CartView.total := Py.Float 0 |}).
Proof.
  intros H. unfold get_cart, bind. rewrite find_one_cart_eq, H. reflexivity.
Qed.

Lemma user_cart_after_checkout (d : Database.t) (uid : string) (c : Doc Cart.t)
      (o : Order.t) :
  unique_ids (cart d) ->
  user_cart (Some d) uid = Some c ->
  user_cart (Some (with_cart (set_items (_id c) [] (cart d))
                             (insert_one (next_id d) (in_order o) d))) uid
  = Some (with_items c []).
Proof.
  intros Hu Hc. unfold user_cart. simpl.
  apply set_items_user_cart; assumption.
Qed.

(** C1: for a user whose cart exists and has items, [checkout] stores an
    order whose total is the float sum, over the cart items in cart order,
    of the current catalog price of the product times the quantity of the
    item (an item whose product the catalog does not hold adds nothing);
    that total is also the sum of price times quantity over the items of
    the order, and it is the total of the reply.  Afterwards the cart of
    the user has the empty item list and [get_cart] returns no items. *)
Theorem checkout_order_total :
  forall (d : Database.t) (req : CheckoutRequest.t) (c : Doc Cart.t),
    let uid := CheckoutRequest.user_id req in
    let lines := priced (Some d) (Cart.items (fields c)) in
    let o := placed_order (Some d) uid (Cart.items (fields c)) in
    let db' := fst (checkout req (Some d)) in
    user_cart (Some d) uid = Some c ->
    Cart.items (fields c) <> [] ->
    valid_items (Cart.items (fields c)) ->
    unique_ids (cart d) ->
    snd (checkout req (Some d)) =
      Return {| Receipt.order_id := Bson.str (next_id d);
                Receipt.total := fsum (map line_value lines);
                Receipt.status := "created" |} /\
    orders db' = orders (Some d) ++ [{| _id := next_id d; fields := o |}] /\
    Order.total o = fsum (map line_value lines) /\
    Order.total o = fsum (map order_item_value (Order.items o)) /\
    map fst lines =
      filter (fun it => match resolve (Some d) (CartItem.product_id it) with
                        | Some _ => true | None => false end)
             (Cart.items (fields c)) /\
    user_cart db' uid = Some (with_items c []) /\
    get_cart uid db' =
      (db', Return {| CartView.items := []; CartView.total := Py.Float 0 |}).
Proof.
  intros d req c uid lines o db' Hc Hne Hv Hu.
  subst db'. rewrite (checkout_populated d req c Hc Hne Hv). simpl fst. simpl snd.
  assert (Hc' := user_cart_after_checkout d uid c o Hu Hc).
  repeat split.
  - subst o. simpl. symmetry. apply fsum_order_items.
  - apply priced_items.
  - exact Hc'.
  - apply (get_cart_emptied _ uid c). exact Hc'.
Qed.

Lemma checkout_order_total_witness :
  snd (checkout {| CheckoutRequest.user_id := "u1" |} (Some scenario_db)) =
  Return {| Receipt.order_id := "000000000000000000000004";
            Receipt.total := 250000%float;
            Receipt.status := "created" |}.
Proof.
  destruct (checkout_order_total scenario_db {| CheckoutRequest.user_id := "u1" |}
                                 scenario_cart) as [H _].
  - reflexivity.
  - discriminate.
  - concrete_list.
  - concrete_list.
  - exact H.
Defined.

(** ** Checkout when no item resolves *)

(** C10: when the cart of the user has items and none of their product ids
    resolves to a product, [checkout] still returns: it stores an order with
    no items and the total 0.0, sets the items of the cart to the empty
    list, and replies with the id of that order, the total 0.0 and the
    status "created". *)
Theorem checkout_all_unresolved :
  forall (d : Database.t) (req : CheckoutRequest.t) (c : Doc Cart.t),
    let uid := CheckoutRequest.user_id req in
    let db' := fst (checkout req (Some d)) in
    user_cart (Some d) uid = Some c ->
    Cart.items (fields c) <> [] ->
    valid_items (Cart.items (fields c)) ->
    unique_ids (cart d) ->
    (forall it, In it (Cart.items (fields c)) ->
                resolve (Some d) (CartItem.product_id it) = None) ->
    snd (checkout req (Some d)) =
      Return {| Receipt.order_id := Bson.str (next_id d);
                Receipt.total := 0%float;
                Receipt.status := "created" |} /\
    orders db' =
      orders (Some d) ++
      [{| _id := next_id d;
          fields := {| Order.user_id := uid; Order.items := [];
                       Order.total := 0%float; Order.status := "pending" |} |}] /\
    user_cart db' uid = Some (with_items c []).
Proof.
  intros d req c uid db' Hc Hne Hv Hu Hnone.
  subst db'. rewrite (checkout_populated d req c Hc Hne Hv). simpl fst. simpl snd.
  unfold placed_order. rewrite (priced_none _ _ Hnone). simpl.
  repeat split.
  apply (user_cart_after_checkout d uid c
           {| Order.user_id := uid; Order.items := [];
              Order.total := 0%float; Order.status := "pending" |} Hu Hc).
Qed.

Lemma checkout_all_unresolved_witness :
  snd (checkout {| CheckoutRequest.user_id := "u2" |} (Some orphan_db)) =
  Return {| Receipt.order_id := "000000000000000000000008";
            Receipt.total := 0%float;
            Receipt.status := "created" |}.
Proof.
  destruct (checkout_all_unresolved orphan_db {| CheckoutRequest.user_id := "u2" |}
                                    orphan_cart) as [H _].
  - reflexivity.
  - discriminate.
  - concrete_list.
  - concrete_list.
  - intros it [Hit | []]. subst it. reflexivity.
  - exact H.
Defined.

(** ** The cart view *)

(** C6: for a cart, [get_cart] returns one line for each item whose product
    id resolves to a product, in cart order, and none for the other items;
    the total is the float sum of price times quantity over exactly the
    returned lines. *)
Theorem get_cart_drops_unresolved :
  forall (d : Database.t) (uid : string) (c : Doc Cart.t),
    let lines := priced (Some d) (Cart.items (fields c)) in
    user_cart (Some d) uid = Some c ->
    valid_items (Cart.items (fields c)) ->
    get_cart uid (Some d) =
      (Some d, Return {| CartView.items := map cart_line lines;
                         CartView.total := Py.Float (fsum (map line_value lines)) |}) /\
    map fst lines =
      filter (fun it => match resolve (Some d) (CartItem.product_id it) with
                        | Some _ => true | None => false end)
             (Cart.items (fields c)) /\
    (forall it p, In (it, p) lines <->
                  In it (Cart.items (fields c)) /\
                  resolve (Some d) (CartItem.product_id it) = Some p) /\
    fsum (map line_value lines) = fsum (map CartLine.subtotal (map cart_line lines)) /\
    (forall l, In l (map cart_line lines) ->
               CartLine.subtotal l = Py.mul_int (CartLine.price l) (CartLine.quantity l)).
Proof.
  intros d uid c lines Hc Hv. split; [|split; [|split; [|split]]].
  - unfold get_cart, bind. rewrite find_one_cart_eq, Hc.
    rewrite (get_cart_loop_spec d _ Hv). reflexivity.
  - apply priced_items.
  - intros it p. apply priced_In.
  - symmetry. apply fsum_cart_lines.
  - intros l Hl. apply in_map_iff in Hl. destruct Hl as [x [Hx _]].
    subst l. reflexivity.
Qed.

Lemma get_cart_drops_unresolved_witness :
  get_cart "u3" (Some mixed_db) =
  (Some mixed_db,
   Return {| CartView.items := map cart_line (priced (Some mixed_db) (Cart.items (fields mixed_cart)));
             CartView.total := Py.Float 250000%float |}) /\
  map (fun l => CartItem.product_id (fst l)) (priced (Some mixed_db) (Cart.items (fields mixed_cart)))
  = [id_A; id_B].
Proof.
  destruct (get_cart_drops_unresolved mixed_db "u3" mixed_cart) as [H _].
  - reflexivity.
  - concrete_list.
  - split; [exact H | reflexivity].
Defined.

Lemma login_failures_indistinguishable_witness :
  login demo_context {| UserLogin.email := "nobody@example.com"; UserLogin.password := "x" |}
        (Some scenario_db)
  = login demo_context {| UserLogin.email := "sari@example.com"; UserLogin.password := "salah" |}
          (Some scenario_db).
Proof.
  destruct (login_failures_indistinguishable demo_context (Some scenario_db)
              {| UserLogin.email := "nobody@example.com"; UserLogin.password := "x" |}
              {| UserLogin.email := "sari@example.com"; UserLogin.password := "salah" |}
              scenario_user) as [H1 H2].
  - intros u [Hu | []]. subst u. discriminate.
  - reflexivity.
  - reflexivity.
  - rewrite H1, H2. reflexivity.
Defined.

(** ** Handlers that only read *)

Lemma find_one_product_db (pid : string) (db : option Database.t) :
  fst (find_one_product pid db) = db.
Proof.
  unfold find_one_product. destruct db as [d|]; [|reflexivity].
  destruct (Bson.parse pid); reflexivity.
Qed.

Lemma get_cart_loop_db (its : list CartItem.t) :
  forall (items : list CartLine.t) (total : float) (db : option Database.t),
    fst (get_cart_loop its items total db) = db.
Proof.
  induction its as [|it its IH]; intros items total db; simpl.
  - reflexivity.
  - unfold bind. pose proof (find_one_product_db (CartItem.product_id it) db) as H.
    destruct (find_one_product (CartItem.product_id it) db) as [db1 r].
    simpl in H. subst db1. destruct r as [[p|]| |]; try reflexivity; apply IH.
Qed.

Lemma checkout_loop_db (its : list CartItem.t) :
  forall (order_items : list OrderItem.t) (total : float) (db : option Database.t),
    fst (checkout_loop its order_items total db) = db.
Proof.
  induction its as [|it its IH]; intros order_items total db; simpl.
  - reflexivity.
  - unfold bind. pose proof (find_one_product_db (CartItem.product_id it) db) as H.
    destruct (find_one_product (CartItem.product_id it) db) as [db1 r].
    simpl in H. subst db1. destruct r as [[p|]| |]; try reflexivity; apply IH.
Qed.

Lemma get_cart_db (uid : string) (db : option Database.t) :
  fst (get_cart uid db) = db.
Proof.
  unfold get_cart, bind. rewrite find_one_cart_eq.
  destruct (user_cart db uid) as [c|]; [|reflexivity].
  pose proof (get_cart_loop_db (Cart.items (fields c)) [] PrimFloat.zero db) as H.
  destruct (get_cart_loop (Cart.items (fields c)) [] PrimFloat.zero db) as [db1 r].
  simpl in H. subst db1. destruct r; reflexivity.
Qed.

Lemma login_db (pwd_context : CryptContext) (creds : UserLogin.t)
      (db : option Database.t) :
  fst (login pwd_context creds db) = db.
Proof.
  unfold login, bind. rewrite find_one_user_eq.
  destruct (user_by_email db (UserLogin.email creds)) as [u|]; [|reflexivity].
  destruct (negb _); reflexivity.
Qed.

Lemma list_products_db (db : option Database.t) : fst (list_products db) = db.
Proof. destruct db; reflexivity. Qed.

(** ** What each handler does to the catalog *)

Lemma register_products (pwd_context : CryptContext) (u : UserCreate.t)
      (db : option Database.t) :
  products (fst (register pwd_context u db)) = products db.
Proof.
  unfold register, bind. rewrite find_one_user_eq.
  destruct (user_by_email db (UserCreate.email u)); [reflexivity|].
  destruct db; reflexivity.
Qed.

Lemma add_to_cart_products (payload : AddToCart.t) (db : option Database.t) :
  products (fst (add_to_cart payload db)) = products db.
Proof.
  unfold add_to_cart, bind.
  pose proof (find_one_product_db (AddToCart.product_id payload) db) as H.
  destruct (find_one_product (AddToCart.product_id payload) db) as [db1 r].
  simpl in H. subst db1. destruct r as [[p|]| |]; try reflexivity.
  rewrite find_one_cart_eq.
  destruct (user_cart db (AddToCart.user_id payload)) as [c|].
  - destruct (bump _ _ _) as [items found]. destruct db; reflexivity.
  - destruct db; reflexivity.
Qed.

Lemma checkout_products (req : CheckoutRequest.t) (db : option Database.t) :
  products (fst (checkout req db)) = products db.
Proof.
  unfold checkout, bind. rewrite find_one_cart_eq.
  destruct (user_cart db (CheckoutRequest.user_id req)) as [c|]; [|reflexivity].
  destruct (Cart.items (fields c)) as [|it its]; [reflexivity|].
  pose proof (checkout_loop_db (it :: its) [] PrimFloat.zero db) as H.
  destruct (checkout_loop (it :: its) [] PrimFloat.zero db) as [db1 r].
  simpl in H. subst db1. destruct r; try reflexivity.
  destruct db; reflexivity.
Qed.

Lemma create_product_products (p : ProductCreate.t) (db : option Database.t) :
  products (fst (create_product p db)) = products db \/
  exists prod oid,
    ProductSchema p = Some prod /\
    products (fst (create_product p db)) = products db ++ [{| _id := oid; fields := prod |}].
Proof.
  unfold create_product. destruct (ProductSchema p) as [prod|] eqn:E.
  - destruct db as [d|].
    + right. exists prod, (next_id d). split; reflexivity.
    + left. reflexivity.
  - left. reflexivity.
Qed.

Lemma ProductSchema_price (p : ProductCreate.t) (prod : Product.t) :
  ProductSchema p = Some prod ->
  PrimFloat.leb 0 (Product.price prod) = true /\
  Product.price prod = ProductCreate.price p.
Proof.
  unfold ProductSchema. destruct (PrimFloat.leb 0 (ProductCreate.price p)) eqn:E.
  - intros H. inversion H; subst. simpl. split; [exact E | reflexivity].
  - discriminate.
Qed.

(** A negative float is not at least zero. *)
Lemma negative_not_ge0 (x : float) :
  PrimFloat.ltb x 0 = true -> PrimFloat.leb 0 x = false.
Proof.
  rewrite ltb_spec, leb_spec.
  replace (Prim2SF 0) with (S754_zero false) by reflexivity.
  destruct (Prim2SF x) as [s|s| |s m e]; simpl; try discriminate; try reflexivity.
  all: unfold SFltb, SFleb, SFcompare; simpl; destruct s; simpl;
    try discriminate; try reflexivity.
Qed.

Lemma handle_prices_ok (pwd_context : CryptContext) (db : option Database.t)
      (r : request) :
  prices_ok db -> prices_ok (handle pwd_context db r).
Proof.
  unfold prices_ok. intros H. destruct r as [u|creds|p| |payload|uid|req|q]; simpl.
  - rewrite register_products. exact H.
  - rewrite login_db. exact H.
  - destruct (create_product_products p db) as [E | [prod [oid [Hs E]]]]; rewrite E.
    + exact H.
    + intros x Hx. apply in_app_or in Hx. destruct Hx as [Hx | [Hx | []]].
      * apply H. exact Hx.
      * subst x. simpl. apply (ProductSchema_price p prod Hs).
  - rewrite list_products_db. exact H.
  - rewrite add_to_cart_products. exact H.
  - rewrite get_cart_db. exact H.
  - rewrite checkout_products. exact H.
  - exact H.
Qed.

Lemma run_prices_ok (pwd_context : CryptContext) (rs : list request) :
  forall db, prices_ok db -> prices_ok (run pwd_context rs db).
Proof.
  unfold run. induction rs as [|r rs IH]; intros db H; simpl.
  - exact H.
  - apply IH. apply handle_prices_ok. exact H.
Qed.

(** ** Prices in the catalog *)

(** C9: every product of a store reached from the empty store by any
    sequence of requests has a price of at least zero; on a configured
    store [create_product] with a price of at least zero returns the id of
    the product it inserted; and [create_product] with a negative price
    raises ValidationError and stores nothing. *)
Theorem product_prices_nonnegative :
  (forall (pwd_context : CryptContext) (rs : list request) (x : Doc Product.t),
      In x (products (run pwd_context rs (Some Database.empty))) ->
      PrimFloat.leb 0 (Product.price (fields x)) = true) /\
  (forall (d : Database.t) (p : ProductCreate.t),
      PrimFloat.leb 0 (ProductCreate.price p) = true ->
      exists prod,
        Product.price prod = ProductCreate.price p /\
        create_product p (Some d) =
          (Some (insert_one (next_id d) (in_product prod) d), Return (Bson.str (next_id d))) /\
        products (fst (create_product p (Some d))) =
          product d ++ [{| _id := next_id d; fields := prod |}]) /\
  (forall (db : option Database.t) (p : ProductCreate.t),
      PrimFloat.ltb (ProductCreate.price p) 0 = true ->
      create_product p db = (db, Raise ValidationError)).
Proof.
  split; [|split].
  - intros pwd_context rs x Hx.
    apply (run_prices_ok pwd_context rs (Some Database.empty)); [|exact Hx].
    intros y Hy. simpl in Hy. contradiction.
  - intros d p Hp. unfold create_product, ProductSchema. rewrite Hp.
    eexists. split; [|split].
    2: reflexivity.
    all: reflexivity.
  - intros db p Hp. unfold create_product, ProductSchema.
    rewrite (negative_not_ge0 _ Hp). reflexivity.
Qed.

Lemma product_prices_nonnegative_witness :
  (forall x, In x (product scenario_db) ->
             PrimFloat.leb 0 (Product.price (fields x)) = true) /\
  fst (create_product product_A (Some Database.empty)) <> Some Database.empty /\
  create_product
    {| ProductCreate.title := "C"; ProductCreate.description := None;
       ProductCreate.price := (-1)%float; ProductCreate.category := "serum";
       ProductCreate.image_url := None |} (Some scenario_db)
  = (Some scenario_db, Raise ValidationError).
Proof.
  destruct product_prices_nonnegative as [H1 [H2 H3]]. split; [|split].
  - intros x Hx. apply (H1 demo_context scenario_requests x). exact Hx.
  - destruct (H2 Database.empty product_A) as [prod [_ [E _]]].
    + reflexivity.
    + rewrite E. discriminate.
  - apply H3. reflexivity.
Defined.

(** ** What each handler does to the carts *)

Lemma bump_ids (pid : string) (qty : Z) (its : list CartItem.t) :
  map CartItem.product_id (fst (bump pid qty its)) = map CartItem.product_id its.
Proof.
  induction its as [|it its IH]; simpl.
  - reflexivity.
  - destruct (String.eqb (CartItem.product_id it) pid).
    + reflexivity.
    + destruct (bump pid qty its) as [rest found]. simpl in *. rewrite IH. reflexivity.
Qed.

Lemma bump_not_found (pid : string) (qty : Z) (its : list CartItem.t) :
  snd (bump pid qty its) = false -> ~ In pid (map CartItem.product_id its).
Proof.
  induction its as [|it its IH]; simpl; intros H.
  - intros [].
  - destruct (String.eqb (CartItem.product_id it) pid) eqn:E.
    + discriminate.
    + destruct (bump pid qty its) as [rest found]. simpl in *.
      intros [Hit | Hin].
      * apply String.eqb_neq in E. contradiction.
      * exact (IH H Hin).
Qed.

Lemma valid_items_ids (its : list CartItem.t) :
  valid_items its <->
  Forall (fun s => Bson.parse s <> None) (map CartItem.product_id its).
Proof. unfold valid_items. rewrite Forall_map. reflexivity. Qed.

Lemma set_items_In (oid : Bson.ObjectId) (its : list CartItem.t)
      (cs : Collection Cart.t) (x : Doc Cart.t) :
  In x (set_items oid its cs) -> In x cs \/ Cart.items (fields x) = its.
Proof.
  induction cs as [|doc cs IH]; simpl; intros H.
  - contradiction.
  - destruct (Bson.eqb (_id doc) oid).
    + destruct H as [H | H].
      * right. subst x. reflexivity.
      * left. right. exact H.
    + destruct H as [H | H].
      * left. left. exact H.
      * destruct (IH H) as [H' | H']; [left; right; exact H' | right; exact H'].
Qed.

Lemma register_carts (pwd_context : CryptContext) (u : UserCreate.t)
      (db : option Database.t) :
  carts (fst (register pwd_context u db)) = carts db.
Proof.
  unfold register, bind. rewrite find_one_user_eq.
  destruct (user_by_email db (UserCreate.email u)); [reflexivity|].
  destruct db; reflexivity.
Qed.

Lemma create_product_carts (p : ProductCreate.t) (db : option Database.t) :
  carts (fst (create_product p db)) = carts db.
Proof.
  unfold create_product. destruct (ProductSchema p); [|reflexivity].
  destruct db; reflexivity.
Qed.

Lemma checkout_carts_ok (req : CheckoutRequest.t) (db : option Database.t) :
  carts_ok db -> carts_ok (fst (checkout req db)).
Proof.
  intros Hok. unfold checkout, bind. rewrite find_one_cart_eq.
  destruct (user_cart db (CheckoutRequest.user_id req)) as [c|]; [|exact Hok].
  destruct (Cart.items (fields c)) as [|it its]; [exact Hok|].
  pose proof (checkout_loop_db (it :: its) [] PrimFloat.zero db) as H.
  destruct (checkout_loop (it :: its) [] PrimFloat.zero db) as [db1 r].
  simpl in H. subst db1. destruct r; try exact Hok.
  destruct db as [d|]; [|exact Hok]. simpl.
  intros x Hx. simpl in Hx. apply set_items_In in Hx. destruct Hx as [Hx | Hx].
  - apply Hok. exact Hx.
  - rewrite Hx. split; [constructor | constructor].
Qed.

Lemma add_to_cart_carts_ok (payload : AddToCart.t) (db : option Database.t) :
  carts_ok db -> carts_ok (fst (add_to_cart payload db)).
Proof.
  intros Hok. unfold add_to_cart, bind.
  destruct db as [d|]; [|exact Hok].
  unfold find_one_product.
  destruct (Bson.parse (AddToCart.product_id payload)) as [oid|] eqn:Hp; [|exact Hok].
  destruct (find _ (product d)) as [prod|]; [|exact Hok].
  rewrite find_one_cart_eq.
  destruct (user_cart (Some d) (AddToCart.user_id payload)) as [c|] eqn:Hc.
  - pose proof (bump_ids (AddToCart.product_id payload)
                         (Py.max1 (AddToCart.quantity payload))
                         (Cart.items (fields c))) as Hids.
    pose proof (bump_not_found (AddToCart.product_id payload)
                               (Py.max1 (AddToCart.quantity payload))
                               (Cart.items (fields c))) as Hnf.
    destruct (bump _ _ _) as [items found]. simpl in Hids, Hnf. simpl.
    apply user_cart_In in Hc. destruct Hc as [Hin _].
    destruct (Hok c Hin) as [Hd Hv].
    intros x Hx. simpl in Hx. apply set_items_In in Hx. destruct Hx as [Hx | Hx].
    + apply Hok. exact Hx.
    + rewrite Hx. unfold distinct_products. rewrite valid_items_ids.
      apply valid_items_ids in Hv. destruct found.
      * rewrite Hids. split; assumption.
      * rewrite map_app, Hids. simpl. split.
        -- apply NoDup_app; [exact Hd | repeat constructor; intros [] | ].
           intros s Hs [Hs' | []]. subst s. exact (Hnf eq_refl Hs).
        -- apply Forall_app. split; [exact Hv|]. constructor; [|constructor].
           rewrite Hp. discriminate.
  - simpl. intros x Hx. simpl in Hx. apply in_app_or in Hx.
    destruct Hx as [Hx | [Hx | []]].
    + apply Hok. exact Hx.
    + subst x. simpl. split.
      * unfold distinct_products. simpl. repeat constructor. intros [].
      * constructor; [|constructor]. simpl. rewrite Hp. discriminate.
Qed.

Lemma handle_carts_ok (pwd_context : CryptContext) (db : option Database.t)
      (r : request) :
  carts_ok db -> carts_ok (handle pwd_context db r).
Proof.
  intros H. destruct r as [u|creds|p| |payload|uid|req|q]; simpl.
  - unfold carts_ok. rewrite register_carts. exact H.
  - rewrite login_db. exact H.
  - unfold carts_ok. rewrite create_product_carts. exact H.
  - rewrite list_products_db. exact H.
  - apply add_to_cart_carts_ok. exact H.
  - rewrite get_cart_db. exact H.
  - apply checkout_carts_ok. exact H.
  - exact H.
Qed.

Lemma run_carts_ok (pwd_context : CryptContext) (rs : list request) :
  forall db, carts_ok db -> carts_ok (run pwd_context rs db).
Proof.
  unfold run. induction rs as [|r rs IH]; intros db H; simpl.
  - exact H.
  - apply IH. apply handle_carts_ok. exact H.
Qed.

(** ** Repeated adds accumulate *)








(** ** The chat responder *)

Lemma prefix_app (k q : string) :
  String.prefix k q = true <-> exists b, q = (k ++ b)%string.
Proof.
  revert q. induction k as [|c k IH]; intros q.
  - split; [intros _; exists q; reflexivity | intros _; destruct q; reflexivity].
  - destruct q as [|c' q]; simpl.
    + split; [discriminate | intros [b Hb]; discriminate].
    + destruct (Ascii.ascii_dec c c') as [E | E].
      * subst c'. rewrite IH. split.
        -- intros [b Hb]. exists b. rewrite Hb. reflexivity.
        -- intros [b Hb]. inversion Hb. exists b. reflexivity.
      * split; [discriminate|]. intros [b Hb]. inversion Hb. congruence.
Qed.

Lemma contains_app (k q : string) :
  Py.contains k q = true <-> exists a b, q = (a ++ k ++ b)%string.
Proof.
  induction q as [|c q IH].
  - cbn [Py.contains]. rewrite orb_false_r. rewrite prefix_app. split.
    + intros [b Hb]. exists EmptyString, b. exact Hb.
    + intros [a [b Hab]]. destruct a as [|x a]; [|discriminate].
      exists b. exact Hab.
  - cbn [Py.contains]. rewrite orb_true_iff, IH, prefix_app. split.
    + intros [[b Hb] | [a [b Hab]]].
      * exists EmptyString, b. exact Hb.
      * exists (String c a), b. simpl. rewrite Hab. reflexivity.
    + intros [a [b Hab]]. destruct a as [|x a].
      * left. exists b. exact Hab.
      * right. simpl in Hab. inversion Hab. exists a, b. reflexivity.
Qed.

Lemma lower_app (a b : string) :
  Py.lower (a ++ b) = (Py.lower a ++ Py.lower b)%string.
Proof.
  induction a as [|c a IH]; simpl; [reflexivity | rewrite IH; reflexivity].
Qed.

Lemma lower_split (q x y : string) :
  Py.lower q = (x ++ y)%string ->
  exists a b, q = (a ++ b)%string /\ Py.lower a = x /\ Py.lower b = y.
Proof.
  revert q. induction x as [|c x IH]; intros q H.
  - exists EmptyString, q. repeat split. exact H.
  - destruct q as [|c' q]; simpl in H; [discriminate|].
    inversion H as [[Hc Hq]]. destruct (IH q Hq) as [a [b [E [Ha Hb]]]].
    exists (String c' a), b. simpl. rewrite E, Ha. repeat split. exact Hb.
Qed.

(** The test of the code, [k in q.lower()], is the case-insensitive
    occurrence of a lower-case keyword. *)
Lemma contains_lower (k q : string) :
  Py.lower k = k ->
  (Py.contains k (Py.lower q) = true <-> occurs_ci k q).
Proof.
  intros Hk. rewrite contains_app. unfold occurs_ci. rewrite Hk. split.
  - intros [x [y H]]. apply lower_split in H. destruct H as [a [r [E [Ha Hr]]]].
    apply lower_split in Hr. destruct Hr as [m [b [E' [Hm Hb]]]].
    exists a, m, b. subst r. split; [exact E | exact Hm].
  - intros [a [m [b [E Hm]]]]. exists (Py.lower a), (Py.lower b).
    rewrite E, !lower_app, Hm. reflexivity.
Qed.

Lemma any_in_matches (ks : list string) (q : string) :
  (forall k, In k ks -> Py.lower k = k) ->
  (Py.any_in ks (Py.lower q) = true <-> matches ks q).
Proof.
  intros Hks. unfold Py.any_in, matches. rewrite existsb_exists. split.
  - intros [k [Hin Hc]]. exists k. split; [exact Hin|].
    apply contains_lower; [apply Hks; exact Hin | exact Hc].
  - intros [k [Hin Ho]]. exists k. split; [exact Hin|].
    apply contains_lower; [apply Hks; exact Hin | exact Ho].
Qed.

Lemma keywords_lower (ks : list string) :
  In ks (map fst rules) -> forall k, In k ks -> Py.lower k = k.
Proof.
  simpl. intros [H | [H | [H | [H | []]]]] k Hk; subst ks; simpl in Hk;
    repeat (destruct Hk as [Hk | Hk]; [subst k; reflexivity|]); contradiction.
Qed.

Lemma any_in_false (ks : list string) (q : string) :
  In ks (map fst rules) -> ~ matches ks q -> Py.any_in ks (Py.lower q) = false.
Proof.
  intros Hin Hn. destruct (Py.any_in ks (Py.lower q)) eqn:E; [|reflexivity].
  exfalso. apply Hn. apply any_in_matches; [apply keywords_lower; exact Hin | exact E].
Qed.

Lemma any_in_true (ks : list string) (q : string) :
  In ks (map fst rules) -> matches ks q -> Py.any_in ks (Py.lower q) = true.
Proof.
  intros Hin Hm. apply any_in_matches; [apply keywords_lower; exact Hin | exact Hm].
Qed.

(** C7: [chat] answers with the first rule of the table (acne, dullness,
    dryness, oiliness, in that order) whose keyword set matches the
    question by case-insensitive substring match, and with the generic
    prompt when no set matches; a question in which "jerawat" occurs gets
    the acne answer whatever else occurs in it. *)
Theorem chat_first_matching_rule :
  forall (req : ChatRequest.t),
    let q := ChatRequest.question req in
    chat req = first_match (fun ks => Py.any_in ks (Py.lower q)) rules answer_generic /\
    (forall ks, In ks (map fst rules) ->
                (Py.any_in ks (Py.lower q) = true <-> matches ks q)) /\
    (matches kw_acne q -> chat req = answer_acne) /\
    (~ matches kw_acne q -> matches kw_dull q -> chat req = answer_dull) /\
    (~ matches kw_acne q -> ~ matches kw_dull q -> matches kw_dry q ->
     chat req = answer_dry) /\
    (~ matches kw_acne q -> ~ matches kw_dull q -> ~ matches kw_dry q ->
     matches kw_oily q -> chat req = answer_oily) /\
    (~ matches kw_acne q -> ~ matches kw_dull q -> ~ matches kw_dry q ->
     ~ matches kw_oily q -> chat req = answer_generic) /\
    (occurs_ci "jerawat" q -> chat req = answer_acne).
Proof.
  intros req q.
  assert (Ia : In kw_acne (map fst rules)) by (simpl; tauto).
  assert (Iu : In kw_dull (map fst rules)) by (simpl; tauto).
  assert (Id : In kw_dry (map fst rules)) by (simpl; tauto).
  assert (Io : In kw_oily (map fst rules)) by (simpl; tauto).
  assert (A : matches kw_acne q -> chat req = answer_acne).
  { intros H. unfold chat. fold q. fold kw_acne.
    rewrite (any_in_true _ _ Ia H). reflexivity. }
  split; [reflexivity|]. split.
  { intros ks Hks. apply any_in_matches. apply keywords_lower. exact Hks. }
  split; [exact A|]. split.
  { intros Na Hu. unfold chat. fold q. fold kw_acne kw_dull.
    rewrite (any_in_false _ _ Ia Na), (any_in_true _ _ Iu Hu). reflexivity. }
  split.
  { intros Na Nu Hd. unfold chat. fold q. fold kw_acne kw_dull kw_dry.
    rewrite (any_in_false _ _ Ia Na), (any_in_false _ _ Iu Nu), (any_in_true _ _ Id Hd).
    reflexivity. }
  split.
  { intros Na Nu Nd Ho. unfold chat. fold q. fold kw_acne kw_dull kw_dry kw_oily.
    rewrite (any_in_false _ _ Ia Na), (any_in_false _ _ Iu Nu),
      (any_in_false _ _ Id Nd), (any_in_true _ _ Io Ho).
    reflexivity. }
  split.
  { intros Na Nu Nd No. unfold chat. fold q. fold kw_acne kw_dull kw_dry kw_oily.
    rewrite (any_in_false _ _ Ia Na), (any_in_false _ _ Iu Nu),
      (any_in_false _ _ Id Nd), (any_in_false _ _ Io No).
    reflexivity. }
  intros H. apply A. exists "jerawat". split; [left; reflexivity | exact H].
Qed.

Lemma chat_first_matching_rule_witness :
  chat {| ChatRequest.question := "Kulit kusam dan JERAWAT" |} = answer_acne.
Proof.
  destruct (chat_first_matching_rule
              {| ChatRequest.question := "Kulit kusam dan JERAWAT" |})
    as [_ [_ [_ [_ [_ [_ [_ H]]]]]]].
  apply H. exists "Kulit kusam dan ", "JERAWAT", "". split; reflexivity.
Defined.

(** ** Identifiers assigned by the store are unique *)

Lemma digits_mod (k : nat) (n m : N) :
  (forall i, (i < k)%nat ->
             ((n / 256 ^ N.of_nat i) mod 256 = (m / 256 ^ N.of_nat i) mod 256)%N) ->
  (n mod 256 ^ N.of_nat k = m mod 256 ^ N.of_nat k)%N.
Proof.
  induction k as [|k IH]; intros H.
  - simpl. rewrite !N.mod_1_r. reflexivity.
  - rewrite Nat2N.inj_succ, N.pow_succ_r'.
    rewrite (N.mul_comm 256).
    rewrite !N.Div0.mod_mul_r.
    rewrite IH by (intros i Hi; apply H; lia).
    rewrite (H k (Nat.lt_succ_diag_r k)). reflexivity.
Qed.

Lemma byte_digit_inj (x y : N) :
  (x < 256)%N -> (y < 256)%N ->
  byte_of_ascii (ascii_of_N x) = byte_of_ascii (ascii_of_N y) -> x = y.
Proof.
  intros Hx Hy H.
  apply (f_equal ascii_of_byte) in H. rewrite !ascii_of_byte_of_ascii in H.
  apply (f_equal N_of_ascii) in H.
  rewrite !N_ascii_embedding in H by assumption. exact H.
Qed.

Lemma Bson_of_N_inj (n m : N) :
  (n < 2 ^ 96)%N -> (m < 2 ^ 96)%N -> Bson.of_N n = Bson.of_N m -> n = m.
Proof.
  intros Hn Hm H. unfold Bson.of_N in H.
  assert (D : forall i, (i < 12)%nat ->
                ((n / 256 ^ N.of_nat i) mod 256 = (m / 256 ^ N.of_nat i) mod 256)%N).
  { intros i Hi.
    pose proof (proj1 map_ext_in_iff H (11 - i)%nat) as E.
    cbv beta in E.
    assert (Hin : In (11 - i)%nat (seq 0 12)) by (apply in_seq; lia).
    specialize (E Hin).
    replace (11 - (11 - i))%nat with i in E by lia.
    apply byte_digit_inj in E; [exact E| |]; apply N.mod_lt; discriminate. }
  apply digits_mod in D. change (256 ^ N.of_nat 12)%N with (2 ^ 96)%N in D.
  rewrite !N.mod_small in D by assumption. exact D.
Qed.

Lemma set_items_ids (oid : Bson.ObjectId) (its : list CartItem.t)
      (cs : Collection Cart.t) :
  map (@_id Cart.t) (set_items oid its cs) = map (@_id Cart.t) cs.
Proof.
  induction cs as [|doc cs IH]; simpl.
  - reflexivity.
  - destruct (Bson.eqb (_id doc) oid); simpl; [reflexivity | rewrite IH; reflexivity].
Qed.

Lemma step_ids_refl (d : Database.t) : step_ids d d.
Proof. unfold step_ids. split; [lia | left; reflexivity]. Qed.

Lemma handle_step_ids (pwd_context : CryptContext) (d : Database.t) (r : request) :
  exists d', handle pwd_context (Some d) r = Some d' /\ step_ids d d'.
Proof.
  destruct r as [u|creds|p| |payload|uid|req|q]; simpl.
  - unfold register, bind. rewrite find_one_user_eq.
    destruct (user_by_email (Some d) (UserCreate.email u)).
    + exists d. split; [reflexivity | apply step_ids_refl].
    + eexists. split; [reflexivity|]. unfold step_ids. simpl.
      split; [lia | left; reflexivity].
  - rewrite login_db. exists d. split; [reflexivity | apply step_ids_refl].
  - unfold create_product. destruct (ProductSchema p).
    + eexists. split; [reflexivity|]. unfold step_ids. simpl.
      split; [lia | left; reflexivity].
    + exists d. split; [reflexivity | apply step_ids_refl].
  - exists d. split; [reflexivity | apply step_ids_refl].
  - unfold add_to_cart, bind, find_one_product.
    destruct (Bson.parse (AddToCart.product_id payload));
      [|exists d; split; [reflexivity | apply step_ids_refl]].
    destruct (find _ (product d));
      [|exists d; split; [reflexivity | apply step_ids_refl]].
    rewrite find_one_cart_eq.
    destruct (user_cart (Some d) (AddToCart.user_id payload)) as [c|].
    + destruct (bump _ _ _) as [items found]. eexists. split; [reflexivity|].
      unfold step_ids. simpl. rewrite set_items_ids. split; [lia | left; reflexivity].
    + eexists. split; [reflexivity|]. unfold step_ids. simpl. rewrite map_app. simpl.
      split; [lia | right; split; reflexivity].
  - rewrite get_cart_db. exists d. split; [reflexivity | apply step_ids_refl].
  - unfold checkout, bind. rewrite find_one_cart_eq.
    destruct (user_cart (Some d) (CheckoutRequest.user_id req)) as [c|];
      [|exists d; split; [reflexivity | apply step_ids_refl]].
    destruct (Cart.items (fields c)) as [|it its];
      [exists d; split; [reflexivity | apply step_ids_refl]|].
    pose proof (checkout_loop_db (it :: its) [] PrimFloat.zero (Some d)) as H.
    destruct (checkout_loop (it :: its) [] PrimFloat.zero (Some d)) as [db1 res].
    simpl in H. subst db1.
    destruct res; try (exists d; split; [reflexivity | apply step_ids_refl]).
    eexists. split; [reflexivity|]. unfold step_ids. simpl. rewrite set_items_ids.
    split; [lia | left; reflexivity].
  - exists d. split; [reflexivity | apply step_ids_refl].
Qed.

Lemma step_ids_ok (d d' : Database.t) :
  step_ids d d' ->
  (next_oid d < 2 ^ 96)%N ->
  unique_ids (cart d) /\ stamped d ->
  unique_ids (cart d') /\ stamped d'.
Proof.
  unfold step_ids, unique_ids, stamped.
  intros [Hn [E | [E En]]] Hb [Hu Hs]; rewrite E.
  - split; [exact Hu|]. eapply Forall_impl; [|exact Hs].
    intros o [k [Hk Ho]]. exists k. split; [lia | exact Ho].
  - split.
    + apply NoDup_app; [exact Hu | repeat constructor; intros [] |].
      intros o Ho [Ho' | []]. subst o.
      rewrite Forall_forall in Hs. destruct (Hs _ Ho) as [k [Hk Hk']].
      apply Bson_of_N_inj in Hk'; lia.
    + apply Forall_app. split.
      * eapply Forall_impl; [|exact Hs].
        intros o [k [Hk Ho]]. exists k. split; [lia | exact Ho].
      * constructor; [|constructor]. exists (next_oid d). split; [lia | reflexivity].
Qed.

Lemma run_ids_ok (pwd_context : CryptContext) (rs : list request) :
  forall d,
    (next_oid d + N.of_nat (List.length rs) <= 2 ^ 96)%N ->
    unique_ids (cart d) /\ stamped d ->
    exists d', run pwd_context rs (Some d) = Some d' /\
               unique_ids (cart d') /\ stamped d'.
Proof.
  unfold run. induction rs as [|r rs IH]; intros d Hb Hok.
  - exists d. split; [reflexivity | exact Hok].
  - cbn [fold_left].
    destruct (handle_step_ids pwd_context d r) as [d1 [E Hstep]]. rewrite E.
    cbn [List.length] in Hb. rewrite Nat2N.inj_succ in Hb.
    apply IH.
    + destruct Hstep as [Hn _]. lia.
    + apply (step_ids_ok d d1 Hstep); [lia | exact Hok].
Qed.

(** The stores reached from the empty store satisfy what the theorems on
    [checkout] and [add_to_cart] ask of a store: cart identifiers are
    unique, and every cart has product ids that name identifiers, each at
    most once. *)
Lemma reachable_well_formed (pwd_context : CryptContext) (rs : list request) :
  (N.of_nat (List.length rs) <= 2 ^ 96)%N ->
  exists d, run pwd_context rs (Some Database.empty) = Some d /\
            unique_ids (cart d) /\
            forall c, In c (cart d) ->
                      distinct_products (Cart.items (fields c)) /\
                      valid_items (Cart.items (fields c)).
Proof.
  intros Hb.
  destruct (run_ids_ok pwd_context rs Database.empty) as [d [E [Hu _]]].
  - simpl. exact Hb.
  - split; [constructor | constructor].
  - exists d. split; [exact E | split; [exact Hu|]].
    intros c Hc.
    assert (Hok : carts_ok (run pwd_context rs (Some Database.empty))).
    { apply run_carts_ok. intros x Hx. simpl in Hx. contradiction. }
    rewrite E in Hok. apply Hok. exact Hc.
Qed.

(** * Further properties *)

(** ** Lookup in a collection that grew *)

Lemma find_app_new {A : Type} (f : A -> bool) (l : list A) (y : A) :
  find f l = None -> f y = true -> find f (l ++ [y]) = Some y.
Proof.
  induction l as [|a l IH]; simpl; intros Hn Hy.
  - rewrite Hy. reflexivity.
  - destruct (f a); [discriminate | apply IH; assumption].
Qed.

Lemma find_app_old {A : Type} (f : A -> bool) (l l' : list A) (x : A) :
  find f l = Some x -> find f (l ++ l') = Some x.
Proof.
  induction l as [|a l IH]; simpl; intros H.
  - discriminate.
  - destruct (f a); [exact H | apply IH; exact H].
Qed.

Lemma find_app_skip {A : Type} (f : A -> bool) (l : list A) (y : A) :
  f y = false -> find f (l ++ [y]) = find f l.
Proof.
  induction l as [|a l IH]; simpl; intros Hy.
  - rewrite Hy. reflexivity.
  - destruct (f a); [reflexivity | apply IH; exact Hy].
Qed.

(** ** Accounts *)

(** X1: [register] with an email that a user document already carries
    raises HTTPException 400 with the detail "Email sudah terdaftar" and
    leaves the store as it was. *)
Theorem register_existing_email_400 :
  forall (pwd_context : CryptContext) (db : option Database.t)
         (user : UserCreate.t) (u : Doc User.t),
    user_by_email db (UserCreate.email user) = Some u ->
    register pwd_context user db = (db, HTTPException 400 "Email sudah terdaftar").
Proof.
  intros pwd_context db user u H. unfold register, bind.
  rewrite find_one_user_eq, H. reflexivity.
Qed.

Lemma register_existing_email_400_witness :
  register demo_context sari (Some scenario_db)
  = (Some scenario_db, HTTPException 400 "Email sudah terdaftar").
Proof.
  apply (register_existing_email_400 demo_context (Some scenario_db) sari scenario_user).
  reflexivity.
Defined.

(** The run of [register] with an email that no user document carries. *)
Lemma register_fresh (pwd_context : CryptContext) (d : Database.t)
      (user : UserCreate.t) :
  no_user (Some d) (UserCreate.email user) ->
  register pwd_context user (Some d) =
  (Some (insert_one (next_id d) (in_user (user_doc pwd_context user)) d),
   Return {| Account.user_id := Bson.str (next_id d);
             Account.name := UserCreate.name user;
             Account.email := UserCreate.email user |}).
Proof.
  intros H. apply no_user_user_by_email in H.
  unfold register, bind. rewrite find_one_user_eq, H. reflexivity.
Qed.

Lemma user_by_email_registered (pwd_context : CryptContext) (d : Database.t)
      (user : UserCreate.t) :
  no_user (Some d) (UserCreate.email user) ->
  user_by_email
    (Some (insert_one (next_id d) (in_user (user_doc pwd_context user)) d))
    (UserCreate.email user)
  = Some {| _id := next_id d; fields := user_doc pwd_context user |}.
Proof.
  intros H. apply no_user_user_by_email in H. unfold user_by_email in *. simpl in *.
  apply find_app_new; [exact H|]. simpl. apply String.eqb_refl.
Qed.

(** X2: on a configured store, [register] with an email that no user
    document carries returns the new user id with the name and the email,
    and appends one user document: it holds the hash of the password (not
    the password), is active, and is the document that a lookup of the
    email finds. *)
Theorem register_fresh_email :
  forall (pwd_context : CryptContext) (d : Database.t) (user : UserCreate.t),
    let db' := fst (register pwd_context user (Some d)) in
    let doc := {| _id := next_id d; fields := user_doc pwd_context user |} in
    no_user (Some d) (UserCreate.email user) ->
    snd (register pwd_context user (Some d)) =
      Return {| Account.user_id := Bson.str (next_id d);
                Account.name := UserCreate.name user;
                Account.email := UserCreate.email user |} /\
    users db' = Database.user d ++ [doc] /\
    User.password_hash (fields doc) = hash pwd_context (UserCreate.password user) /\
    User.is_active (fields doc) = true /\
    user_by_email db' (UserCreate.email user) = Some doc /\
    products db' = product d /\ carts db' = cart d /\ orders db' = order d.
Proof.
  intros pwd_context d user db' doc H. subst db'.
  rewrite (register_fresh pwd_context d user H). cbn [fst snd].
  repeat split. apply user_by_email_registered. exact H.
Qed.

Lemma register_fresh_email_witness :
  snd (register demo_context sari (Some Database.empty)) =
  Return {| Account.user_id := "000000000000000000000000";
            Account.name := "Sari"; Account.email := "sari@example.com" |}.
Proof.
  destruct (register_fresh_email demo_context Database.empty sari) as [H _].
  - intros u Hu. simpl in Hu. contradiction.
  - exact H.
Defined.

(** X3: registering the same email twice: after a first [register] that
    went through, a second one with that email (whatever the name and the
    password) raises HTTPException 400 and adds no user. *)
Theorem register_twice_conflict :
  forall (pwd_context : CryptContext) (d : Database.t) (first second : UserCreate.t),
    let db' := fst (register pwd_context first (Some d)) in
    no_user (Some d) (UserCreate.email first) ->
    UserCreate.email second = UserCreate.email first ->
    register pwd_context second db' = (db', HTTPException 400 "Email sudah terdaftar").
Proof.
  intros pwd_context d first second db' H E. subst db'.
  rewrite (register_fresh pwd_context d first H). cbn [fst].
  unfold register, bind. rewrite find_one_user_eq, E.
  rewrite (user_by_email_registered pwd_context d first H). reflexivity.
Qed.

Lemma register_twice_conflict_witness :
  register demo_context
    {| UserCreate.name := "Other"; UserCreate.email := "sari@example.com";
       UserCreate.password := "lain" |}
    (fst (register demo_context sari (Some Database.empty)))
  = (fst (register demo_context sari (Some Database.empty)),
     HTTPException 400 "Email sudah terdaftar").
Proof.
  apply (register_twice_conflict demo_context Database.empty sari).
  - intros u Hu. simpl in Hu. contradiction.
  - reflexivity.
Defined.

(** X4: [register] and then [login]: when the password context verifies
    a password against its own hash, a login with the registered email and
    password returns the account that [register] returned, and changes
    nothing. *)
Theorem register_then_login :
  forall (pwd_context : CryptContext) (d : Database.t) (user : UserCreate.t),
    let db' := fst (register pwd_context user (Some d)) in
    let creds := {| UserLogin.email := UserCreate.email user;
                    UserLogin.password := UserCreate.password user |} in
    no_user (Some d) (UserCreate.email user) ->
    verify pwd_context (UserCreate.password user)
           (hash pwd_context (UserCreate.password user)) = true ->
    login pwd_context creds db' = (db', snd (register pwd_context user (Some d))).
Proof.
  intros pwd_context d user db' creds H Hv. subst db'.
  rewrite (register_fresh pwd_context d user H). cbn [fst snd].
  unfold login, bind. rewrite find_one_user_eq. unfold creds.
  cbn [UserLogin.email UserLogin.password].
  rewrite (user_by_email_registered pwd_context d user H).
  cbn [fields User.password_hash user_doc]. rewrite Hv. reflexivity.
Qed.

Lemma register_then_login_witness :
  snd (login demo_context sari_login
         (fst (register demo_context sari (Some Database.empty))))
  = Return {| Account.user_id := "000000000000000000000000";
              Account.name := "Sari"; Account.email := "sari@example.com" |}.
Proof.
  refine (f_equal snd (register_then_login demo_context Database.empty sari _ _)).
  - intros u Hu. simpl in Hu. contradiction.
  - reflexivity.
Defined.

(** X5: [login] returns an account exactly when a user document carries
    the email and its hash verifies the password; the account is then the
    id, name and email of that document.  Every other login is answered by
    HTTPException 401. *)
Theorem login_success_iff :
  forall (pwd_context : CryptContext) (db : option Database.t) (creds : UserLogin.t),
    (forall a, snd (login pwd_context creds db) = Return a <->
               exists u, user_by_email db (UserLogin.email creds) = Some u /\
                         verify pwd_context (UserLogin.password creds)
                                (User.password_hash (fields u)) = true /\
                         a = account_of u) /\
    ((forall a, snd (login pwd_context creds db) <> Return a) ->
     snd (login pwd_context creds db) = HTTPException 401 "Email atau password salah").
Proof.
  intros pwd_context db creds. unfold login, bind. rewrite find_one_user_eq.
  destruct (user_by_email db (UserLogin.email creds)) as [u|].
  - destruct (verify pwd_context (UserLogin.password creds)
                     (User.password_hash (fields u))) eqn:Hv; simpl.
    + split.
      * intros a. split.
        -- intros H. inversion H; subst. exists u.
           split; [reflexivity | split; [exact Hv | reflexivity]].
        -- intros [u' [Hu [_ Ha]]]. inversion Hu; subst. reflexivity.
      * intros H. exfalso. apply (H (account_of u)). reflexivity.
    + split; [|reflexivity]. intros a. split; [discriminate|].
      intros [u' [Hu [Hv' _]]]. inversion Hu; subst. congruence.
  - simpl. split; [|reflexivity]. intros a. split; [discriminate|].
    intros [u [Hu _]]. discriminate.
Qed.

Lemma login_success_iff_witness :
  snd (login demo_context sari_login (Some scenario_db)) = Return (account_of scenario_user).
Proof.
  destruct (login_success_iff demo_context (Some scenario_db) sari_login) as [H _].
  apply H. exists scenario_user. repeat split.
Defined.

(** ** The first item and a new entry *)






(** ** The carts of other users *)

Lemma set_items_other_user (cs : Collection Cart.t) (c : Doc Cart.t)
      (its : list CartItem.t) (uid' : string) :
  unique_ids cs ->
  In c cs ->
  Cart.user_id (fields c) <> uid' ->
  find (fun x => String.eqb (Cart.user_id (fields x)) uid') (set_items (_id c) its cs)
  = find (fun x => String.eqb (Cart.user_id (fields x)) uid') cs.
Proof.
  unfold unique_ids. induction cs as [|doc cs IH]; simpl; intros Hu Hin Hne.
  - reflexivity.
  - inversion Hu as [|? ? Hnotin Hu']; subst.
    destruct (Bson.eqb (_id doc) (_id c)) eqn:E.
    + apply Bson_eqb_eq in E. destruct Hin as [Hin | Hin].
      * subst doc. simpl. apply String.eqb_neq in Hne. rewrite Hne. reflexivity.
      * exfalso. apply Hnotin. rewrite E. apply in_map. exact Hin.
    + destruct Hin as [Hin | Hin].
      * subst doc. rewrite Bson_eqb_refl in E. discriminate.
      * simpl. rewrite (IH Hu' Hin Hne). reflexivity.
Qed.

(** X8: [add_to_cart] and [checkout] for one user leave the cart of every
    other user as it was, whatever the outcome of the request. *)
Theorem other_carts_untouched :
  forall (d : Database.t) (uid' : string),
    unique_ids (cart d) ->
    (forall payload : AddToCart.t,
        AddToCart.user_id payload <> uid' ->
        user_cart (fst (add_to_cart payload (Some d))) uid' = user_cart (Some d) uid') /\
    (forall req : CheckoutRequest.t,
        CheckoutRequest.user_id req <> uid' ->
        user_cart (fst (checkout req (Some d))) uid' = user_cart (Some d) uid').
Proof.
  intros d uid' Hu. split.
  - intros payload Hne. unfold add_to_cart, bind, find_one_product.
    destruct (Bson.parse (AddToCart.product_id payload)); [|reflexivity].
    destruct (find _ (product d)); [|reflexivity].
    rewrite find_one_cart_eq.
    destruct (user_cart (Some d) (AddToCart.user_id payload)) as [c|] eqn:Hc.
    + destruct (bump _ _ _) as [items found].
      cbn [fst snd update_one_cart bind ret]. unfold user_cart. simpl.
      apply user_cart_In in Hc. destruct Hc as [Hin Hc].
      apply set_items_other_user; [exact Hu | exact Hin | congruence].
    + cbn [fst snd create_document bind ret]. unfold user_cart. simpl.
      apply find_app_skip. simpl. apply String.eqb_neq. exact Hne.
  - intros req Hne. unfold checkout, bind. rewrite find_one_cart_eq.
    destruct (user_cart (Some d) (CheckoutRequest.user_id req)) as [c|] eqn:Hc;
      [|reflexivity].
    destruct (Cart.items (fields c)) as [|it its]; [reflexivity|].
    pose proof (checkout_loop_db (it :: its) [] PrimFloat.zero (Some d)) as H.
    destruct (checkout_loop (it :: its) [] PrimFloat.zero (Some d)) as [db1 res].
    simpl in H. subst db1. destruct res; try reflexivity.
    cbn [fst snd create_document update_one_cart bind ret]. unfold user_cart. simpl.
    apply user_cart_In in Hc. destruct Hc as [Hin Hc].
    apply set_items_other_user; [exact Hu | exact Hin | congruence].
Qed.

Lemma other_carts_untouched_witness :
  user_cart (fst (checkout {| CheckoutRequest.user_id := "u1" |} (Some two_carts_db))) "u2"
  = user_cart (Some two_carts_db) "u2".
Proof.
  destruct (other_carts_untouched two_carts_db "u2") as [_ H].
  - concrete_list.
  - apply (H {| CheckoutRequest.user_id := "u1" |}). discriminate.
Defined.

(** ** What the writing handlers do to the store *)

(** The three ways [add_to_cart] ends on a configured store. *)
Lemma add_to_cart_effect (d : Database.t) (payload : AddToCart.t) :
  fst (add_to_cart payload (Some d)) = Some d \/
  exists p, resolve (Some d) (AddToCart.product_id payload) = Some p /\
    ((user_cart (Some d) (AddToCart.user_id payload) = None /\
      fst (add_to_cart payload (Some d)) =
        Some (insert_one (next_id d)
                (in_cart {| Cart.user_id := AddToCart.user_id payload;
                            Cart.items := [new_item payload] |}) d)) \/
     (exists c, user_cart (Some d) (AddToCart.user_id payload) = Some c /\
                fst (add_to_cart payload (Some d)) =
                  Some (with_cart
                          (set_items (_id c) (updated_items payload (Cart.items (fields c)))
                                     (cart d)) d))).
Proof.
  unfold add_to_cart, bind, find_one_product, resolve.
  destruct (Bson.parse (AddToCart.product_id payload)) as [oid|]; [|left; reflexivity].
  simpl products.
  destruct (find _ (product d)) as [p|]; [|left; reflexivity].
  right. exists p. split; [reflexivity|].
  rewrite find_one_cart_eq.
  destruct (user_cart (Some d) (AddToCart.user_id payload)) as [c|].
  - right. exists c. split; [reflexivity|]. unfold updated_items.
    destruct (bump _ _ _) as [items found]. destruct found; reflexivity.
  - left. split; reflexivity.
Qed.

(** The two ways [checkout] ends on a configured store. *)
Lemma checkout_effect (d : Database.t) (req : CheckoutRequest.t) :
  fst (checkout req (Some d)) = Some d \/
  exists c o, user_cart (Some d) (CheckoutRequest.user_id req) = Some c /\
              fst (checkout req (Some d)) =
                Some (with_cart (set_items (_id c) [] (cart d))
                                (insert_one (next_id d) (in_order o) d)).
Proof.
  unfold checkout, bind. rewrite find_one_cart_eq.
  destruct (user_cart (Some d) (CheckoutRequest.user_id req)) as [c|]; [|left; reflexivity].
  destruct (Cart.items (fields c)) as [|it its]; [left; reflexivity|].
  pose proof (checkout_loop_db (it :: its) [] PrimFloat.zero (Some d)) as H.
  destruct (checkout_loop (it :: its) [] PrimFloat.zero (Some d)) as [db1 res].
  simpl in H. subst db1. destruct res as [r| |]; try (left; reflexivity).
  right. eexists c, _. split; reflexivity.
Qed.

(** The two ways [register] ends on a configured store. *)
Lemma register_effect (pwd_context : CryptContext) (d : Database.t)
      (user : UserCreate.t) :
  fst (register pwd_context user (Some d)) = Some d \/
  (user_by_email (Some d) (UserCreate.email user) = None /\
   fst (register pwd_context user (Some d)) =
     Some (insert_one (next_id d) (in_user (user_doc pwd_context user)) d)).
Proof.
  unfold register, bind. rewrite find_one_user_eq.
  destruct (user_by_email (Some d) (UserCreate.email user)).
  - left. reflexivity.
  - right. split; reflexivity.
Qed.

(** The two ways [create_product] ends on a configured store. *)
Lemma create_product_effect (d : Database.t) (p : ProductCreate.t) :
  fst (create_product p (Some d)) = Some d \/
  exists prod, ProductSchema p = Some prod /\
               fst (create_product p (Some d)) =
                 Some (insert_one (next_id d) (in_product prod) d).
Proof.
  unfold create_product. destruct (ProductSchema p) as [prod|].
  - right. exists prod. split; reflexivity.
  - left. reflexivity.
Qed.

(** A handler leaves an absent store absent. *)
Lemma handle_unconfigured (pwd_context : CryptContext) (r : request) :
  handle pwd_context None r = None.
Proof.
  destruct r as [u|creds|p| |payload|uid|req|q]; simpl; try reflexivity.
  unfold create_product. destruct (ProductSchema p); reflexivity.
Qed.

Lemma set_items_users (oid : Bson.ObjectId) (its : list CartItem.t)
      (cs : Collection Cart.t) :
  map (fun c => Cart.user_id (fields c)) (set_items oid its cs)
  = map (fun c => Cart.user_id (fields c)) cs.
Proof.
  induction cs as [|doc cs IH]; simpl.
  - reflexivity.
  - destruct (Bson.eqb (_id doc) oid); simpl; [reflexivity | rewrite IH; reflexivity].
Qed.

Lemma bump_quantities (pid : string) (qty : Z) (its : list CartItem.t) :
  (1 <= qty)%Z ->
  Forall (fun it => (1 <= CartItem.quantity it)%Z) its ->
  Forall (fun it => (1 <= CartItem.quantity it)%Z) (fst (bump pid qty its)).
Proof.
  intros Hq. induction its as [|it its IH]; simpl; intros H.
  - constructor.
  - inversion H as [|? ? H1 H2]; subst.
    destruct (String.eqb (CartItem.product_id it) pid).
    + simpl. constructor; [simpl; lia | exact H2].
    + destruct (bump pid qty its) as [rest found]. simpl in *.
      constructor; [exact H1 | apply IH; exact H2].
Qed.

Lemma updated_items_quantities (payload : AddToCart.t) (its : list CartItem.t) :
  Forall (fun it => (1 <= CartItem.quantity it)%Z) its ->
  Forall (fun it => (1 <= CartItem.quantity it)%Z) (updated_items payload its).
Proof.
  intros H. unfold updated_items.
  assert (Hq : (1 <= Py.max1 (AddToCart.quantity payload))%Z)
    by (unfold Py.max1; lia).
  pose proof (bump_quantities (AddToCart.product_id payload) _ its Hq H) as Hb.
  destruct (snd (bump _ _ its)); [exact Hb|].
  apply Forall_app. split; [exact Hb|]. constructor; [exact Hq | constructor].
Qed.

Lemma updated_items_ids (payload : AddToCart.t) (its : list CartItem.t) :
  incl (map CartItem.product_id (updated_items payload its))
       (AddToCart.product_id payload :: map CartItem.product_id its).
Proof.
  unfold updated_items.
  pose proof (bump_ids (AddToCart.product_id payload)
                       (Py.max1 (AddToCart.quantity payload)) its) as Hb.
  destruct (snd (bump _ _ its)).
  - rewrite Hb. apply incl_tl. apply incl_refl.
  - rewrite map_app, Hb. simpl. intros x Hx. apply in_app_or in Hx.
    destruct Hx as [Hx | [Hx | []]]; [right; exact Hx | left; exact Hx].
Qed.

(** ** Invariants of the carts *)

Lemma handle_quantities_ok (pwd_context : CryptContext) (db : option Database.t)
      (r : request) :
  quantities_ok db -> quantities_ok (handle pwd_context db r).
Proof.
  intros H. destruct db as [d|]; [|rewrite handle_unconfigured; exact H].
  destruct r as [u|creds|p| |payload|uid|req|q]; simpl.
  - unfold quantities_ok. rewrite register_carts. exact H.
  - rewrite login_db. exact H.
  - unfold quantities_ok. rewrite create_product_carts. exact H.
  - exact H.
  - destruct (add_to_cart_effect d payload)
      as [E | [p [_ [[_ E] | [c [Hc E]]]]]]; rewrite E.
    + exact H.
    + intros x Hx. simpl in Hx. apply in_app_or in Hx.
      destruct Hx as [Hx | [Hx | []]]; [apply H; exact Hx|].
      subst x. simpl. constructor; [|constructor]. simpl. unfold Py.max1. lia.
    + intros x Hx. simpl in Hx. apply set_items_In in Hx.
      destruct Hx as [Hx | Hx]; [apply H; exact Hx|]. rewrite Hx.
      apply updated_items_quantities. apply H.
      apply user_cart_In in Hc. apply Hc.
  - rewrite get_cart_db. exact H.
  - destruct (checkout_effect d req) as [E | [c [o [_ E]]]]; rewrite E.
    + exact H.
    + intros x Hx. simpl in Hx. apply set_items_In in Hx.
      destruct Hx as [Hx | Hx]; [apply H; exact Hx|]. rewrite Hx. constructor.
  - exact H.
Qed.

Lemma user_cart_none_not_in (db : option Database.t) (uid : string) :
  user_cart db uid = None ->
  ~ In uid (map (fun c => Cart.user_id (fields c)) (carts db)).
Proof.
  intros H Hin. apply no_cart_user_cart in H.
  apply in_map_iff in Hin. destruct Hin as [c [E Hc]].
  exact (H c Hc E).
Qed.

Lemma handle_one_cart_per_user (pwd_context : CryptContext) (db : option Database.t)
      (r : request) :
  one_cart_per_user db -> one_cart_per_user (handle pwd_context db r).
Proof.
  intros H. destruct db as [d|]; [|rewrite handle_unconfigured; exact H].
  unfold one_cart_per_user in *.
  destruct r as [u|creds|p| |payload|uid|req|q]; simpl handle.
  - rewrite register_carts. exact H.
  - rewrite login_db. exact H.
  - rewrite create_product_carts. exact H.
  - exact H.
  - destruct (add_to_cart_effect d payload)
      as [E | [p [_ [[Hn E] | [c [Hc E]]]]]]; rewrite E.
    + exact H.
    + simpl. rewrite map_app. simpl.
      apply NoDup_app; [exact H | repeat constructor; intros [] |].
      intros x Hx [Hx' | []]. subst x.
      exact (user_cart_none_not_in (Some d) _ Hn Hx).
    + simpl. rewrite set_items_users. exact H.
  - rewrite get_cart_db. exact H.
  - destruct (checkout_effect d req) as [E | [c [o [_ E]]]]; rewrite E.
    + exact H.
    + simpl. rewrite set_items_users. exact H.
  - exact H.
Qed.

(** ** Invariant of the users *)

Lemma add_to_cart_users (payload : AddToCart.t) (d : Database.t) :
  users (fst (add_to_cart payload (Some d))) = user d.
Proof.
  destruct (add_to_cart_effect d payload)
    as [E | [p [_ [[_ E] | [c [_ E]]]]]]; rewrite E; reflexivity.
Qed.

Lemma checkout_users (req : CheckoutRequest.t) (d : Database.t) :
  users (fst (checkout req (Some d))) = user d.
Proof.
  destruct (checkout_effect d req) as [E | [c [o [_ E]]]]; rewrite E; reflexivity.
Qed.

Lemma create_product_users (p : ProductCreate.t) (d : Database.t) :
  users (fst (create_product p (Some d))) = user d.
Proof.
  destruct (create_product_effect d p) as [E | [prod [_ E]]]; rewrite E; reflexivity.
Qed.

Lemma handle_emails_unique (pwd_context : CryptContext) (db : option Database.t)
      (r : request) :
  emails_unique db -> emails_unique (handle pwd_context db r).
Proof.
  intros H. destruct db as [d|]; [|rewrite handle_unconfigured; exact H].
  unfold emails_unique in *.
  destruct r as [u|creds|p| |payload|uid|req|q]; simpl handle.
  - destruct (register_effect pwd_context d u) as [E | [Hn E]]; rewrite E.
    + exact H.
    + simpl. rewrite map_app. simpl.
      apply NoDup_app; [exact H | repeat constructor; intros [] |].
      intros x Hx [Hx' | []]. subst x.
      apply in_map_iff in Hx. destruct Hx as [v [Ev Hv]].
      apply no_user_user_by_email in Hn. exact (Hn v Hv Ev).
  - rewrite login_db. exact H.
  - rewrite create_product_users. exact H.
  - exact H.
  - rewrite add_to_cart_users. exact H.
  - rewrite get_cart_db. exact H.
  - rewrite checkout_users. exact H.
  - exact H.
Qed.

(** ** Collections only grow *)

Lemma handle_products_grow (pwd_context : CryptContext) (db : option Database.t)
      (r : request) :
  exists l, products (handle pwd_context db r) = products db ++ l.
Proof.
  destruct r as [u|creds|p| |payload|uid|req|q]; simpl handle.
  - exists []. rewrite register_products, app_nil_r. reflexivity.
  - exists []. rewrite login_db, app_nil_r. reflexivity.
  - destruct (create_product_products p db) as [E | [prod [oid [_ E]]]].
    + exists []. rewrite E, app_nil_r. reflexivity.
    + eexists. exact E.
  - exists []. rewrite list_products_db, app_nil_r. reflexivity.
  - exists []. rewrite add_to_cart_products, app_nil_r. reflexivity.
  - exists []. rewrite get_cart_db, app_nil_r. reflexivity.
  - exists []. rewrite checkout_products, app_nil_r. reflexivity.
  - exists []. rewrite app_nil_r. reflexivity.
Qed.

Lemma resolve_grow (db db' : option Database.t) (l : Collection Product.t)
      (pid : string) (p : Doc Product.t) :
  products db' = products db ++ l ->
  resolve db pid = Some p -> resolve db' pid = Some p.
Proof.
  unfold resolve. intros E. rewrite E.
  destruct (Bson.parse pid); [|discriminate]. apply find_app_old.
Qed.

Lemma handle_resolve (pwd_context : CryptContext) (db : option Database.t)
      (r : request) (pid : string) (p : Doc Product.t) :
  resolve db pid = Some p -> resolve (handle pwd_context db r) pid = Some p.
Proof.
  destruct (handle_products_grow pwd_context db r) as [l E].
  apply (resolve_grow db _ l pid p E).
Qed.

Lemma run_resolve (pwd_context : CryptContext) (rs : list request) :
  forall (db : option Database.t) (pid : string) (p : Doc Product.t),
    resolve db pid = Some p -> resolve (run pwd_context rs db) pid = Some p.
Proof.
  unfold run. induction rs as [|r rs IH]; intros db pid p H; simpl.
  - exact H.
  - apply IH. apply handle_resolve. exact H.
Qed.

Lemma resolves_mono (db db' : option Database.t) (its : list CartItem.t) :
  (forall pid p, resolve db pid = Some p -> resolve db' pid = Some p) ->
  Forall (fun it => resolve db (CartItem.product_id it) <> None) its ->
  Forall (fun it => resolve db' (CartItem.product_id it) <> None) its.
Proof.
  intros Hm H. eapply Forall_impl; [|exact H].
  intros it Hit. simpl in Hit.
  destruct (resolve db (CartItem.product_id it)) as [p|] eqn:E; [|contradiction].
  rewrite (Hm _ p E). discriminate.
Qed.

Lemma handle_carts_resolve (pwd_context : CryptContext) (db : option Database.t)
      (r : request) :
  carts_resolve db -> carts_resolve (handle pwd_context db r).
Proof.
  intros H. destruct db as [d|]; [|rewrite handle_unconfigured; exact H].
  assert (Hm : forall pid p, resolve (Some d) pid = Some p ->
                             resolve (handle pwd_context (Some d) r) pid = Some p)
    by (intros pid p; apply handle_resolve).
  assert (Old : forall c, In c (cart d) ->
                  Forall (fun it => resolve (handle pwd_context (Some d) r)
                                            (CartItem.product_id it) <> None)
                         (Cart.items (fields c))).
  { intros c Hc. apply (resolves_mono (Some d)); [exact Hm | apply H; exact Hc]. }
  unfold carts_resolve. revert Hm Old.
  destruct r as [u|creds|p| |payload|uid|req|q]; simpl handle; intros Hm Old.
  - rewrite register_carts. exact Old.
  - rewrite login_db in *. exact Old.
  - rewrite create_product_carts. exact Old.
  - exact Old.
  - destruct (add_to_cart_effect d payload)
      as [E | [p [Hr [[_ E] | [c [Hc E]]]]]]; rewrite E in *.
    + exact Old.
    + intros x Hx. simpl in Hx. apply in_app_or in Hx.
      destruct Hx as [Hx | [Hx | []]]; [apply Old; exact Hx|].
      subst x. cbn [fields Cart.items]. constructor; [|constructor].
      cbn [new_item CartItem.product_id]. rewrite (Hm _ p Hr). discriminate.
    + intros x Hx. simpl in Hx. apply set_items_In in Hx.
      destruct Hx as [Hx | Hx]; [apply Old; exact Hx|]. rewrite Hx.
      apply user_cart_In in Hc. destruct Hc as [Hc _].
      specialize (Old c Hc). rewrite Forall_forall in *.
      intros it Hit.
      assert (Hid : In (CartItem.product_id it)
                       (AddToCart.product_id payload
                          :: map CartItem.product_id (Cart.items (fields c)))).
      { apply updated_items_ids. apply in_map. exact Hit. }
      destruct Hid as [Hid | Hid].
      * rewrite <- Hid. rewrite (Hm _ p Hr). discriminate.
      * apply in_map_iff in Hid. destruct Hid as [it' [Eit Hit']].
        rewrite <- Eit. apply Old. exact Hit'.
  - rewrite get_cart_db in *. exact Old.
  - destruct (checkout_effect d req) as [E | [c [o [_ E]]]]; rewrite E in *.
    + exact Old.
    + intros x Hx. simpl in Hx. apply set_items_In in Hx.
      destruct Hx as [Hx | Hx]; [apply Old; exact Hx|]. rewrite Hx. constructor.
  - exact Old.
Qed.

(** The four invariants together, along a sequence of requests. *)
Lemma run_store_invariants (pwd_context : CryptContext) (rs : list request) :
  forall db,
    quantities_ok db /\ one_cart_per_user db /\ emails_unique db /\ carts_resolve db ->
    quantities_ok (run pwd_context rs db) /\
    one_cart_per_user (run pwd_context rs db) /\
    emails_unique (run pwd_context rs db) /\
    carts_resolve (run pwd_context rs db).
Proof.
  unfold run. induction rs as [|r rs IH]; intros db H; simpl.
  - exact H.
  - apply IH. destruct H as [H1 [H2 [H3 H4]]]. repeat split.
    + apply handle_quantities_ok. exact H1.
    + apply handle_one_cart_per_user. exact H2.
    + apply handle_emails_unique. exact H3.
    + apply handle_carts_resolve. exact H4.
Qed.

Lemma empty_store_invariants :
  quantities_ok (Some Database.empty) /\ one_cart_per_user (Some Database.empty) /\
  emails_unique (Some Database.empty) /\ carts_resolve (Some Database.empty).
Proof.
  repeat split; try constructor; intros c Hc; simpl in Hc; contradiction.
Qed.

(** X9: in every store reached from the empty store by any sequence of
    requests, every quantity in every cart is at least 1: [add_to_cart]
    adds [max(1, quantity)], so a request with a quantity of zero or less
    never lowers an entry. *)
Theorem reachable_quantities_positive :
  forall (pwd_context : CryptContext) (rs : list request) (c : Doc Cart.t)
         (it : CartItem.t),
    In c (carts (run pwd_context rs (Some Database.empty))) ->
    In it (Cart.items (fields c)) ->
    (1 <= CartItem.quantity it)%Z.
Proof.
  intros pwd_context rs c it Hc Hit.
  destruct (run_store_invariants pwd_context rs _ empty_store_invariants) as [H _].
  specialize (H c Hc). rewrite Forall_forall in H. apply H. exact Hit.
Qed.

Lemma reachable_quantities_positive_witness :
  (1 <= CartItem.quantity {| CartItem.product_id := id_B; CartItem.quantity := 1 |})%Z.
Proof.
  apply (reachable_quantities_positive demo_context scenario_requests scenario_cart
           {| CartItem.product_id := id_B; CartItem.quantity := 1 |}).
  - left. reflexivity.
  - right. left. reflexivity.
Defined.

(** X10: in every store reached from the empty store by any sequence of
    requests, no two cart documents carry the same user id: [add_to_cart]
    creates a cart only for a user that has none. *)
Theorem reachable_one_cart_per_user :
  forall (pwd_context : CryptContext) (rs : list request),
    one_cart_per_user (run pwd_context rs (Some Database.empty)).
Proof.
  intros pwd_context rs.
  apply (run_store_invariants pwd_context rs _ empty_store_invariants).
Qed.

(** X11: in every store reached from the empty store by any sequence of
    requests, no two user documents carry the same email: [register]
    inserts a user only when no document has the email. *)
Theorem reachable_emails_unique :
  forall (pwd_context : CryptContext) (rs : list request),
    emails_unique (run pwd_context rs (Some Database.empty)).
Proof.
  intros pwd_context rs.
  apply (run_store_invariants pwd_context rs _ empty_store_invariants).
Qed.

(** ** The cart view of a reachable store *)

Lemma priced_all (db : option Database.t) (its : list CartItem.t) :
  Forall (fun it => resolve db (CartItem.product_id it) <> None) its ->
  map fst (priced db its) = its.
Proof.
  induction its as [|it its IH]; intros H; simpl.
  - reflexivity.
  - inversion H as [|? ? H1 H2]; subst.
    destruct (resolve db (CartItem.product_id it)) as [p|]; [|contradiction].
    simpl. rewrite (IH H2). reflexivity.
Qed.

(** X12: in every store reached from the empty store by any sequence of
    requests, every product id in every cart resolves, so [get_cart]
    returns (it raises nothing) and its view has one line for each item of
    the cart, in cart order with the quantities of the cart: through the
    requests alone no line is ever dropped. *)
Theorem reachable_get_cart_complete :
  forall (pwd_context : CryptContext) (rs : list request) (uid : string)
         (c : Doc Cart.t),
    let db := run pwd_context rs (Some Database.empty) in
    user_cart db uid = Some c ->
    exists v,
      get_cart uid db = (db, Return v) /\
      map CartLine.quantity (CartView.items v) =
        map CartItem.quantity (Cart.items (fields c)) /\
      List.length (CartView.items v) = List.length (Cart.items (fields c)) /\
      Forall (fun it => resolve db (CartItem.product_id it) <> None)
             (Cart.items (fields c)).
Proof.
  intros pwd_context rs uid c db Hc.
  assert (Hok : carts_ok db).
  { apply run_carts_ok. intros x Hx. simpl in Hx. contradiction. }
  destruct (run_store_invariants pwd_context rs _ empty_store_invariants)
    as [_ [_ [_ Hres]]].
  fold db in Hres.
  destruct (user_cart_In db uid c Hc) as [Hin _].
  destruct (Hok c Hin) as [_ Hv]. specialize (Hres c Hin).
  destruct db as [d|]; [|discriminate].
  exists {| CartView.items := map cart_line (priced (Some d) (Cart.items (fields c)));
            CartView.total :=
              Py.Float (fsum (map line_value (priced (Some d) (Cart.items (fields c))))) |}.
  assert (Hq : map CartLine.quantity
                   (map cart_line (priced (Some d) (Cart.items (fields c))))
               = map CartItem.quantity (Cart.items (fields c))).
  { rewrite map_map. rewrite <- (priced_all (Some d) _ Hres) at 2.
    rewrite map_map. reflexivity. }
  split; [|split; [|split]].
  - unfold get_cart, bind. rewrite find_one_cart_eq, Hc.
    rewrite (get_cart_loop_spec d _ Hv). reflexivity.
  - exact Hq.
  - cbn [CartView.items].
    rewrite <- (length_map CartLine.quantity), Hq, length_map. reflexivity.
  - exact Hres.
Qed.

Lemma reachable_get_cart_complete_witness :
  exists v,
    get_cart "u1" (run demo_context scenario_requests (Some Database.empty))
    = (run demo_context scenario_requests (Some Database.empty), Return v) /\
    map CartLine.quantity (CartView.items v) = [2%Z; 1%Z].
Proof.
  destruct (reachable_get_cart_complete demo_context scenario_requests "u1" scenario_cart)
    as [v [H1 [H2 _]]].
  - reflexivity.
  - exists v. split; [exact H1 | exact H2].
Defined.

(** ** Totals and repeated checkout *)

(** X13: the total that [get_cart] shows is the total that a [checkout]
    made on the same store charges and stores: both loops add the same
    subtotals in the same order. *)
Theorem get_cart_total_is_checkout_total :
  forall (d : Database.t) (req : CheckoutRequest.t) (c : Doc Cart.t),
    user_cart (Some d) (CheckoutRequest.user_id req) = Some c ->
    Cart.items (fields c) <> [] ->
    valid_items (Cart.items (fields c)) ->
    exists v r,
      snd (get_cart (CheckoutRequest.user_id req) (Some d)) = Return v /\
      snd (checkout req (Some d)) = Return r /\
      CartView.total v = Py.Float (Receipt.total r) /\
      map CartLine.subtotal (CartView.items v) =
        map order_item_value
            (Order.items (placed_order (Some d) (CheckoutRequest.user_id req)
                                       (Cart.items (fields c)))).
Proof.
  intros d req c Hc Hne Hv.
  rewrite (checkout_populated d req c Hc Hne Hv).
  unfold get_cart, bind. rewrite find_one_cart_eq, Hc.
  rewrite (get_cart_loop_spec d _ Hv). cbn [fst snd ret].
  eexists. eexists. split; [reflexivity|]. split; [reflexivity|].
  split; [reflexivity|]. cbn [CartView.items placed_order Order.items app].
  rewrite !map_map. reflexivity.
Qed.

Lemma get_cart_total_is_checkout_total_witness :
  exists v r,
    snd (get_cart "u1" (Some scenario_db)) = Return v /\
    snd (checkout {| CheckoutRequest.user_id := "u1" |} (Some scenario_db)) = Return r /\
    CartView.total v = Py.Float (Receipt.total r).
Proof.
  destruct (get_cart_total_is_checkout_total scenario_db
              {| CheckoutRequest.user_id := "u1" |} scenario_cart)
    as [v [r [H1 [H2 [H3 _]]]]].
  - reflexivity.
  - discriminate.
  - concrete_list.
  - exists v, r. split; [exact H1 | split; [exact H2 | exact H3]].
Defined.

(** X14: a second [checkout] right after one that went through finds the
    cart empty: it raises HTTPException 400 and stores no second order. *)
Theorem checkout_twice_400 :
  forall (d : Database.t) (req : CheckoutRequest.t) (c : Doc Cart.t),
    let db' := fst (checkout req (Some d)) in
    user_cart (Some d) (CheckoutRequest.user_id req) = Some c ->
    Cart.items (fields c) <> [] ->
    valid_items (Cart.items (fields c)) ->
    unique_ids (cart d) ->
    checkout req db' = (db', HTTPException 400 "Keranjang kosong") /\
    List.length (orders db') = S (List.length (order d)).
Proof.
  intros d req c db' Hc Hne Hv Hu. subst db'.
  rewrite (checkout_populated d req c Hc Hne Hv). cbn [fst]. split.
  - unfold checkout, bind. rewrite find_one_cart_eq.
    rewrite (user_cart_after_checkout d _ c _ Hu Hc). reflexivity.
  - simpl. rewrite length_app. simpl. lia.
Qed.

Lemma checkout_twice_400_witness :
  snd (checkout {| CheckoutRequest.user_id := "u1" |}
         (fst (checkout {| CheckoutRequest.user_id := "u1" |} (Some scenario_db))))
  = HTTPException 400 "Keranjang kosong".
Proof.
  destruct (checkout_twice_400 scenario_db {| CheckoutRequest.user_id := "u1" |}
                               scenario_cart) as [H _].
  - reflexivity.
  - discriminate.
  - concrete_list.
  - concrete_list.
  - cbv zeta in H. rewrite H. reflexivity.
Defined.

(** ** Requests that fail, requests that read *)

Lemma serve_handle (pwd_context : CryptContext) (db : option Database.t)
      (r : request) :
  fst (serve pwd_context db r) = handle pwd_context db r.
Proof. destruct r; reflexivity. Qed.

(** X15: a request whose handler does not return (it raises an
    HTTPException or lets an exception escape) leaves the store exactly as
    it was: every handler writes only after its last check.  A login, a
    product listing, a cart view and a chat question leave the store as it
    was whatever their outcome. *)
Theorem failed_request_no_effect :
  forall (pwd_context : CryptContext) (db : option Database.t) (r : request),
    (snd (serve pwd_context db r) = false -> fst (serve pwd_context db r) = db) /\
    (reads_only r = true -> fst (serve pwd_context db r) = db).
Proof.
  intros pwd_context db r. split.
  - destruct r as [u|creds|p| |payload|uid|req|q]; cbn [serve fst snd].
    + unfold register, bind. rewrite find_one_user_eq.
      destruct (user_by_email db (UserCreate.email u)); [reflexivity|].
      destruct db; simpl; [discriminate | reflexivity].
    + intros _. apply login_db.
    + unfold create_product. destruct (ProductSchema p); [|reflexivity].
      destruct db; simpl; [discriminate | reflexivity].
    + intros _. apply list_products_db.
    + destruct db as [d|]; [|reflexivity].
      unfold add_to_cart, bind, find_one_product.
      destruct (Bson.parse (AddToCart.product_id payload)); [|reflexivity].
      destruct (find _ (product d)); [|reflexivity].
      rewrite find_one_cart_eq.
      destruct (user_cart (Some d) (AddToCart.user_id payload)) as [c|].
      * destruct (bump _ _ _) as [items found]. simpl. discriminate.
      * simpl. discriminate.
    + intros _. apply get_cart_db.
    + destruct db as [d|]; [|reflexivity].
      unfold checkout, bind. rewrite find_one_cart_eq.
      destruct (user_cart (Some d) (CheckoutRequest.user_id req)) as [c|];
        [|reflexivity].
      destruct (Cart.items (fields c)) as [|it its]; [reflexivity|].
      pose proof (checkout_loop_db (it :: its) [] PrimFloat.zero (Some d)) as H.
      destruct (checkout_loop (it :: its) [] PrimFloat.zero (Some d)) as [db1 res].
      simpl in H. subst db1. destruct res; try reflexivity.
      simpl. discriminate.
    + reflexivity.
  - destruct r as [u|creds|p| |payload|uid|req|q]; cbn [serve fst reads_only];
      try discriminate; intros _.
    + apply login_db.
    + apply list_products_db.
    + apply get_cart_db.
    + reflexivity.
Qed.

Lemma failed_request_no_effect_witness :
  fst (serve demo_context (Some scenario_db) (add_item "u1" "abc" 1)) = Some scenario_db /\
  fst (serve demo_context (Some scenario_db) (GetCart "u1")) = Some scenario_db.
Proof.
  split.
  - apply (proj1 (failed_request_no_effect demo_context (Some scenario_db)
                                           (add_item "u1" "abc" 1))).
    reflexivity.
  - apply (proj2 (failed_request_no_effect demo_context (Some scenario_db)
                                           (GetCart "u1"))).
    reflexivity.
Defined.

(** ** Stored documents are kept *)

Lemma handle_users_grow (pwd_context : CryptContext) (db : option Database.t)
      (r : request) :
  exists l, users (handle pwd_context db r) = users db ++ l.
Proof.
  destruct db as [d|];
    [|exists []; rewrite handle_unconfigured, app_nil_r; reflexivity].
  destruct r as [u|creds|p| |payload|uid|req|q]; simpl handle.
  - destruct (register_effect pwd_context d u) as [E | [_ E]]; rewrite E.
    + exists []. rewrite app_nil_r. reflexivity.
    + eexists. reflexivity.
  - exists []. rewrite login_db, app_nil_r. reflexivity.
  - exists []. rewrite create_product_users, app_nil_r. reflexivity.
  - exists []. rewrite app_nil_r. reflexivity.
  - exists []. rewrite add_to_cart_users, app_nil_r. reflexivity.
  - exists []. rewrite get_cart_db, app_nil_r. reflexivity.
  - exists []. rewrite checkout_users, app_nil_r. reflexivity.
  - exists []. rewrite app_nil_r. reflexivity.
Qed.

Lemma handle_orders_grow (pwd_context : CryptContext) (db : option Database.t)
      (r : request) :
  exists l, orders (handle pwd_context db r) = orders db ++ l.
Proof.
  destruct db as [d|];
    [|exists []; rewrite handle_unconfigured, app_nil_r; reflexivity].
  destruct r as [u|creds|p| |payload|uid|req|q]; simpl handle.
  - destruct (register_effect pwd_context d u) as [E | [_ E]]; rewrite E;
      exists []; rewrite app_nil_r; reflexivity.
  - exists []. rewrite login_db, app_nil_r. reflexivity.
  - destruct (create_product_effect d p) as [E | [prod [_ E]]]; rewrite E;
      exists []; rewrite app_nil_r; reflexivity.
  - exists []. rewrite app_nil_r. reflexivity.
  - destruct (add_to_cart_effect d payload)
      as [E | [p [_ [[_ E] | [c [_ E]]]]]]; rewrite E;
      exists []; rewrite app_nil_r; reflexivity.
  - exists []. rewrite get_cart_db, app_nil_r. reflexivity.
  - destruct (checkout_effect d req) as [E | [c [o [_ E]]]]; rewrite E.
    + exists []. rewrite app_nil_r. reflexivity.
    + eexists. reflexivity.
  - exists []. rewrite app_nil_r. reflexivity.
Qed.

(** X16: no sequence of requests modifies or removes a stored user,
    product or order: each of the three collections after the requests is
    the collection before them with documents appended.  In particular
    the items, prices and total that an order recorded at checkout are
    never rewritten. *)
Theorem stored_documents_are_kept :
  forall (pwd_context : CryptContext) (rs : list request) (db : option Database.t),
    (exists l, users (run pwd_context rs db) = users db ++ l) /\
    (exists l, products (run pwd_context rs db) = products db ++ l) /\
    (exists l, orders (run pwd_context rs db) = orders db ++ l).
Proof.
  intros pwd_context rs. unfold run.
  induction rs as [|r rs IH]; intros db; simpl.
  - repeat split; exists []; rewrite app_nil_r; reflexivity.
  - destruct (IH (handle pwd_context db r)) as [[lu Hu] [[lp Hp] [lo Ho]]].
    destruct (handle_users_grow pwd_context db r) as [lu' Hu'].
    destruct (handle_products_grow pwd_context db r) as [lp' Hp'].
    destruct (handle_orders_grow pwd_context db r) as [lo' Ho'].
    repeat split.
    + exists (lu' ++ lu). rewrite Hu, Hu', app_assoc. reflexivity.
    + exists (lp' ++ lp). rewrite Hp, Hp', app_assoc. reflexivity.
    + exists (lo' ++ lo). rewrite Ho, Ho', app_assoc. reflexivity.
Qed.

(** X17: a product id that resolves to a product keeps resolving to that
    same document, with the same price and fields, after any sequence of
    requests: nothing in the interface changes or removes a product. *)
Theorem product_resolution_stable :
  forall (pwd_context : CryptContext) (rs : list request) (db : option Database.t)
         (pid : string) (p : Doc Product.t),
    resolve db pid = Some p ->
    resolve (run pwd_context rs db) pid = Some p.
Proof.
  intros pwd_context rs db pid p H. apply run_resolve. exact H.
Qed.

Lemma product_resolution_stable_witness :
  resolve (run demo_context
               [CreateProduct product_B; add_item "u1" id_A 1;
                Checkout {| CheckoutRequest.user_id := "u1" |}]
               (Some scenario_db)) id_A
  = Some scenario_product_A.
Proof.
  apply (product_resolution_stable demo_context _ (Some scenario_db) id_A scenario_product_A).
  reflexivity.
Defined.

(** ** Identifiers as strings *)

Lemma Bson_fromhex_byte (b : byte) (rest : string) :
  Bson.fromhex (Bson.str [b] ++ rest) = option_map (cons b) (Bson.fromhex rest).
Proof. destruct b; reflexivity. Qed.

Lemma Bson_fromhex_str (o : Bson.ObjectId) : Bson.fromhex (Bson.str o) = Some o.
Proof.
  induction o as [|b o IH].
  - reflexivity.
  - change (Bson.str (b :: o)) with (Bson.str [b] ++ Bson.str o)%string.
    rewrite Bson_fromhex_byte, IH. reflexivity.
Qed.

Lemma Bson_str_length (o : Bson.ObjectId) :
  String.length (Bson.str o) = (2 * List.length o)%nat.
Proof.
  induction o as [|b o IH]; simpl; [reflexivity | rewrite IH; lia].
Qed.

(** [ObjectId(str(o))] is [o] for an identifier of 12 bytes. *)
Lemma Bson_parse_str (o : Bson.ObjectId) :
  List.length o = 12%nat -> Bson.parse (Bson.str o) = Some o.
Proof.
  intros H. unfold Bson.parse. rewrite Bson_str_length, H. simpl.
  apply Bson_fromhex_str.
Qed.

Lemma Bson_of_N_length (n : N) : List.length (Bson.of_N n) = 12%nat.
Proof. unfold Bson.of_N. rewrite length_map, length_seq. reflexivity. Qed.


Lemma find_by_id_unique (ps : Collection Product.t) (doc : Doc Product.t) :
  NoDup (map (@_id Product.t) ps) -> In doc ps ->
  find (fun x => Bson.eqb (_id x) (_id doc)) ps = Some doc.
Proof.
  induction ps as [|a ps IH]; simpl; intros Hu Hin.
  - contradiction.
  - inversion Hu as [|? ? Hnotin Hu']; subst.
    destruct (Bson.eqb (_id a) (_id doc)) eqn:E.
    + apply Bson_eqb_eq in E. destruct Hin as [Hin | Hin]; [subst; reflexivity|].
      exfalso. apply Hnotin. rewrite E. apply in_map. exact Hin.
    + destruct Hin as [Hin | Hin].
      * subst a. rewrite Bson_eqb_refl in E. discriminate.
      * apply IH; assumption.
Qed.


(** ** Creating a product and using its id *)



(** ** Product identifiers of a reachable store *)

Lemma assigned_fresh (n : N) (ids : list Bson.ObjectId) :
  (n < 2 ^ 96)%N -> assigned n ids -> ~ In (Bson.of_N n) ids.
Proof.
  intros Hn [_ Hb] Hin. rewrite Forall_forall in Hb.
  destruct (Hb _ Hin) as [k [Hk E]]. apply Bson_of_N_inj in E; lia.
Qed.

Lemma assigned_step (n n' : N) (ids ids' : list Bson.ObjectId) :
  (n < 2 ^ 96)%N ->
  (n <= n' <= N.succ n)%N ->
  ids' = ids \/ (ids' = ids ++ [Bson.of_N n] /\ n' = N.succ n) ->
  assigned n ids -> assigned n' ids'.
Proof.
  intros Hb Hn Hids Ha. pose proof (assigned_fresh n ids Hb Ha) as Hfresh.
  destruct Ha as [Hu Hs]. destruct Hids as [E | [E En]]; subst ids'.
  - split; [exact Hu|]. eapply Forall_impl; [|exact Hs].
    intros o [k [Hk Ho]]. exists k. split; [lia | exact Ho].
  - split.
    + apply NoDup_app; [exact Hu | repeat constructor; intros [] |].
      intros o Ho [Ho' | []]. subst o. exact (Hfresh Ho).
    + apply Forall_app. split.
      * eapply Forall_impl; [|exact Hs].
        intros o [k [Hk Ho]]. exists k. split; [lia | exact Ho].
      * constructor; [|constructor]. exists n. split; [lia | reflexivity].
Qed.

Lemma handle_step_products (pwd_context : CryptContext) (d : Database.t)
      (r : request) :
  exists d', handle pwd_context (Some d) r = Some d' /\
             (next_oid d <= next_oid d' <= N.succ (next_oid d))%N /\
             (map (@_id Product.t) (product d') = map (@_id Product.t) (product d) \/
              (map (@_id Product.t) (product d')
               = map (@_id Product.t) (product d) ++ [Bson.of_N (next_oid d)] /\
               next_oid d' = N.succ (next_oid d))).
Proof.
  assert (Same : exists d', Some d = Some d' /\
             (next_oid d <= next_oid d' <= N.succ (next_oid d))%N /\
             (map (@_id Product.t) (product d') = map (@_id Product.t) (product d) \/
              (map (@_id Product.t) (product d')
               = map (@_id Product.t) (product d) ++ [Bson.of_N (next_oid d)] /\
               next_oid d' = N.succ (next_oid d)))).
  { exists d. split; [reflexivity|]. split; [lia | left; reflexivity]. }
  destruct r as [u|creds|p| |payload|uid|req|q]; simpl handle.
  - destruct (register_effect pwd_context d u) as [E | [_ E]]; rewrite E;
      [exact Same|].
    eexists. split; [reflexivity|]. simpl. split; [lia | left; reflexivity].
  - rewrite login_db. exact Same.
  - destruct (create_product_effect d p) as [E | [prod [_ E]]]; rewrite E;
      [exact Same|].
    eexists. split; [reflexivity|]. simpl. rewrite map_app. simpl.
    split; [lia | right; split; reflexivity].
  - exact Same.
  - destruct (add_to_cart_effect d payload)
      as [E | [p [_ [[_ E] | [c [_ E]]]]]]; rewrite E; [exact Same| |];
      (eexists; split; [reflexivity|]; simpl; split; [lia | left; reflexivity]).
  - rewrite get_cart_db. exact Same.
  - destruct (checkout_effect d req) as [E | [c [o [_ E]]]]; rewrite E;
      [exact Same|].
    eexists. split; [reflexivity|]. simpl. split; [lia | left; reflexivity].
  - exact Same.
Qed.

Lemma run_products_assigned (pwd_context : CryptContext) (rs : list request) :
  forall d,
    (next_oid d + N.of_nat (List.length rs) <= 2 ^ 96)%N ->
    assigned (next_oid d) (map (@_id Product.t) (product d)) ->
    exists d', run pwd_context rs (Some d) = Some d' /\
               (next_oid d' <= next_oid d + N.of_nat (List.length rs))%N /\
               assigned (next_oid d') (map (@_id Product.t) (product d')).
Proof.
  unfold run. induction rs as [|r rs IH]; intros d Hb Ha.
  - exists d. split; [reflexivity|]. split; [simpl; lia | exact Ha].
  - cbn [fold_left].
    destruct (handle_step_products pwd_context d r) as [d1 [E [Hn Hids]]]. rewrite E.
    cbn [List.length] in *. rewrite Nat2N.inj_succ in *.
    destruct (IH d1) as [d' [E' [Hn' Ha']]].
    + lia.
    + apply (assigned_step (next_oid d) _ (map (@_id Product.t) (product d)));
        [lia | exact Hn | exact Hids | exact Ha].
    + exists d'. split; [exact E'|]. split; [lia | exact Ha'].
Qed.

(** X19: in a store reached from the empty store by at most 2^96 requests,
    product identifiers are distinct, and every entry that [list_products]
    returns carries an id string that resolves back to the product of that
    entry: a listed id can be handed to [add_to_cart] as it is. *)
Theorem reachable_listed_ids_resolve :
  forall (pwd_context : CryptContext) (rs : list request),
    let db := run pwd_context rs (Some Database.empty) in
    (N.of_nat (List.length rs) <= 2 ^ 96)%N ->
    NoDup (map (@_id Product.t) (products db)) /\
    exists l,
      list_products db = (db, Return l) /\
      List.length l = List.length (products db) /\
      forall x, In x l ->
                exists p, resolve db (Listed.id x) = Some p /\
                          fields p = Listed.fields x /\
                          Bson.str (_id p) = Listed.id x.
Proof.
  intros pwd_context rs db Hb. subst db.
  destruct (run_products_assigned pwd_context rs Database.empty) as [d [E [_ Ha]]].
  - simpl. exact Hb.
  - split; constructor.
  - rewrite E. destruct Ha as [Hu Hs]. split; [exact Hu|].
    eexists. split; [reflexivity|]. split; [apply length_map|].
    intros x Hx. apply in_map_iff in Hx. destruct Hx as [p [Ex Hp]].
    exists p. subst x. simpl. split; [|split; reflexivity].
    unfold resolve.
    assert (Hlen : List.length (_id p) = 12%nat).
    { rewrite Forall_forall in Hs.
      destruct (Hs (_id p) (in_map _ _ _ Hp)) as [k [_ Ek]].
      rewrite Ek. apply Bson_of_N_length. }
    rewrite (Bson_parse_str _ Hlen). simpl products.
    apply find_by_id_unique; assumption.
Qed.

Lemma reachable_listed_ids_resolve_witness :
  NoDup (map (@_id Product.t) (product scenario_db)).
Proof.
  destruct (reachable_listed_ids_resolve demo_context scenario_requests) as [H _].
  - vm_compute. discriminate.
  - exact H.
Defined.

(** X20: [list_products] after a [create_product] that went through is
    the listing before it with one entry appended: the id that
    [create_product] returned, with the fields of the request and
    [in_stock] set. *)
Theorem list_products_after_create :
  forall (d : Database.t) (p : ProductCreate.t),
    PrimFloat.leb 0 (ProductCreate.price p) = true ->
    exists id l d',
      create_product p (Some d) = (Some d', Return id) /\
      list_products (Some d) = (Some d, Return l) /\
      list_products (Some d') =
        (Some d',
         Return (l ++ [{| Listed.id := id;
                          Listed.fields :=
                            {| Product.title := ProductCreate.title p;
                               Product.description := ProductCreate.description p;
                               Product.price := ProductCreate.price p;
                               Product.category := ProductCreate.category p;
                               Product.image_url := ProductCreate.image_url p;
                               Product.in_stock := true |} |}])).
Proof.
  intros d p Hp. eexists. eexists. eexists. split; [|split].
  - unfold create_product, ProductSchema. rewrite Hp. reflexivity.
  - reflexivity.
  - unfold list_products, bind, get_documents_product, ret.
    cbn [insert_one product]. rewrite map_app. reflexivity.
Qed.

Lemma list_products_after_create_witness :
  exists id l d',
    create_product product_A (Some Database.empty) = (Some d', Return id) /\
    list_products (Some Database.empty) = (Some Database.empty, Return l) /\
    List.length l = 0%nat.
Proof.
  destruct (list_products_after_create Database.empty product_A)
    as [id [l [d' [H1 [H2 _]]]]].
  - reflexivity.
  - exists id, l, d'. split; [exact H1|]. split; [exact H2|].
    inversion H2. reflexivity.
Defined.

(** ** Product ids that are no identifiers *)

(** X21: on a configured store, [add_to_cart] with a product id that is
    not 24 characters long lets InvalidId escape, whatever the catalog and
    the cart, and changes nothing; without a store the same request is
    answered by HTTPException 404, because the lookup is skipped. *)
Theorem add_to_cart_short_product_id :
  forall (d : Database.t) (payload : AddToCart.t),
    String.length (AddToCart.product_id payload) <> 24%nat ->
    add_to_cart payload (Some d) = (Some d, Raise InvalidId) /\
    add_to_cart payload None = (None, HTTPException 404 "Produk tidak ditemukan").
Proof.
  intros d payload H. split; [|reflexivity].
  unfold add_to_cart, bind. rewrite find_one_product_invalid; [reflexivity|].
  unfold Bson.parse. apply Nat.eqb_neq in H. rewrite H. reflexivity.
Qed.

Lemma add_to_cart_short_product_id_witness :
  add_to_cart (add_request "u1" "1" 1) (Some scenario_db)
  = (Some scenario_db, Raise InvalidId).
Proof.
  apply (add_to_cart_short_product_id scenario_db (add_request "u1" "1" 1)).
  discriminate.
Defined.

(** ** Cart requests on a reachable store *)

(** X22: in every store reached from the empty store by any sequence of
    requests, [get_cart] always returns a view, and [checkout] either
    returns a receipt or raises HTTPException 400 for a missing or empty
    cart: neither lets an exception escape, because [add_to_cart] only
    stores product ids that it could convert. *)
Theorem reachable_cart_requests_never_raise :
  forall (pwd_context : CryptContext) (rs : list request) (uid : string)
         (req : CheckoutRequest.t),
    let db := run pwd_context rs (Some Database.empty) in
    (exists v, get_cart uid db = (db, Return v)) /\
    (checkout req db = (db, HTTPException 400 "Keranjang kosong") \/
     exists r, snd (checkout req db) = Return r).
Proof.
  intros pwd_context rs uid req db.
  assert (Hok : carts_ok db).
  { apply run_carts_ok. intros x Hx. simpl in Hx. contradiction. }
  split.
  - unfold get_cart, bind. rewrite find_one_cart_eq.
    destruct (user_cart db uid) as [c|] eqn:Hc; [|eexists; reflexivity].
    destruct (user_cart_In db uid c Hc) as [Hin _].
    destruct (Hok c Hin) as [_ Hv].
    destruct db as [d|]; [|discriminate].
    rewrite (get_cart_loop_spec d _ Hv). eexists. reflexivity.
  - unfold checkout, bind. rewrite find_one_cart_eq.
    destruct (user_cart db (CheckoutRequest.user_id req)) as [c|] eqn:Hc;
      [|left; reflexivity].
    destruct (user_cart_In db _ c Hc) as [Hin _].
    destruct (Hok c Hin) as [_ Hv].
    destruct db as [d|]; [|discriminate].
    destruct (Cart.items (fields c)) as [|it its] eqn:E; [left; reflexivity|].
    right. rewrite (checkout_loop_spec d (it :: its) Hv).
    eexists. reflexivity.
Qed.

(** ** Letter case in product ids *)









(** ** Adding after a checkout *)



